(** * Passport panel form: rows and form assembly

    A shallow embedding of
    [Telegram/SourceFiles/passport/passport_panel_form.cpp]:
    the [PanelForm::Row] widget (layout, ready flag, painting) and the
    assembly of the form by [PanelForm::setupContent] and
    [PanelForm::setupControls].

    Conventions.
    - A C++ [int] is a [Z]; every arithmetic operator reduces its result to
      the 32-bit two's-complement range ([to_int]). The language leaves
      signed overflow undefined, so a property that compares magnitudes is
      stated for results that fit an [int] ([fits_int]).
    - A method of a class is a computation in the state monad over the
      object's fields ([M Row A] for a method of [Row] returning [A]).
    - A lambda is a constructor of [ClickHandler] carrying the values it
      captured by copy; [invoke] gives its body.
    - Style constants ([st::...]), localisation ([lng_...]) and text shaping
      ([Text::countHeight]) are not defined in this file of the program; they
      are parameters of the development. *)

From Stdlib Require Import ZArith String Lia.
From stdpp Require Import base list.

Local Open Scope Z_scope.

(** ** Machine integers *)

Definition int_min : Z := - 2 ^ 31.
Definition int_max : Z := 2 ^ 31 - 1.

(** Reduction of a mathematical integer to the value an [int] holds. *)
Definition to_int (z : Z) : Z := (z + 2 ^ 31) mod 2 ^ 32 - 2 ^ 31.

Definition fits_int (z : Z) : Prop := int_min <= z <= int_max.

Definition int_add (a b : Z) : Z := to_int (a + b).
Definition int_sub (a b : Z) : Z := to_int (a - b).
(** [a / b] on [int] truncates towards zero. *)
Definition int_div (a b : Z) : Z := to_int (Z.quot a b).

Infix "+i" := int_add (at level 50, left associativity).
Infix "-i" := int_sub (at level 50, left associativity).
Infix "/i" := int_div (at level 40, left associativity).

(** ** A state monad for methods *)

Definition M (S A : Type) : Type := S -> A * S.

Definition ret {S A} (a : A) : M S A := fun s => (a, s).
Definition bind {S A B} (m : M S A) (k : A -> M S B) : M S B :=
  fun s => let (a, s') := m s in k a s'.
Definition gets {S A} (f : S -> A) : M S A := fun s => (f s, s).
Definition modify {S} (f : S -> S) : M S unit := fun s => (tt, f s).
Definition exec {S A} (m : M S A) (s : S) : S := snd (m s).
Definition eval {S A} (m : M S A) (s : S) : A := fst (m s).

Notation "'let!' x ':=' m 'in' k" := (bind m (fun x => k))
  (at level 10, x name, m at level 100, k at level 200).
Notation "m ;; k" := (bind m (fun _ => k))
  (at level 100, k at level 200, right associativity).

(** ** Styles *)

Record QMargins : Type := {
  margin_left : Z;
  margin_top : Z;
  margin_right : Z;
  margin_bottom : Z
}.

Record Icon : Type := {
  icon_width : Z;
  icon_height : Z
}.

(** The constants of [styles/style_passport.h] and [styles/style_boxes.h]
    that [Row] reads. *)
Record Style : Type := {
  passportRowPadding : QMargins;
  passportRowSkip : Z;
  passportRowIconSkip : Z;
  passportRowReadyIcon : Icon;
  passportRowEmptyIcon : Icon;
  boxWideWidth : Z
}.

Inductive TextStyle : Type := semiboldTextStyle | defaultTextStyle.

Inductive Color : Type := passportRowTitleFg | passportRowDescriptionFg.

Definition QString : Type := string.

(** A [Text] as its constructor receives it: text style, string and the
    minimal resize width (the options are [Ui::NameTextOptions()] at both
    uses). *)
Record Text : Type := {
  text_st : TextStyle;
  text_string : QString;
  text_minResizeWidth : Z
}.

(** ** Click handlers

    The lambdas of this file, each with its by-copy captures, and the
    [UrlClickHandler] installed on the policy label. *)
Inductive ClickHandler : Type :=
| LambdaEditScope (index : Z)     (* [=] { _controller->editScope(index); } *)
| LambdaSubmitForm                (* [=] { _controller->submitForm(); } *)
| UrlClickHandler (url : QString).

(** ** Row *)

Record Row : Type := {
  (* inherited widget state *)
  width : Z;
  height : Z;
  updates : nat;                   (* update() requests issued so far *)
  clicks : list ClickHandler;      (* handlers added by addClickHandler *)
  (* members *)
  _title : Text;
  _description : Text;
  _titleHeight : Z;
  _descriptionHeight : Z;
  _ready : bool
}.

Definition set_titleHeight (h : Z) (r : Row) : Row :=
  {| width := width r; height := height r; updates := updates r;
     clicks := clicks r; _title := _title r; _description := _description r;
     _titleHeight := h; _descriptionHeight := _descriptionHeight r;
     _ready := _ready r |}.

Definition set_descriptionHeight (h : Z) (r : Row) : Row :=
  {| width := width r; height := height r; updates := updates r;
     clicks := clicks r; _title := _title r; _description := _description r;
     _titleHeight := _titleHeight r; _descriptionHeight := h;
     _ready := _ready r |}.

Definition set_ready (b : bool) (r : Row) : Row :=
  {| width := width r; height := height r; updates := updates r;
     clicks := clicks r; _title := _title r; _description := _description r;
     _titleHeight := _titleHeight r;
     _descriptionHeight := _descriptionHeight r; _ready := b |}.

Definition set_size (w h : Z) (r : Row) : Row :=
  {| width := w; height := h; updates := updates r;
     clicks := clicks r; _title := _title r; _description := _description r;
     _titleHeight := _titleHeight r;
     _descriptionHeight := _descriptionHeight r; _ready := _ready r |}.

Definition set_updates (n : nat) (r : Row) : Row :=
  {| width := width r; height := height r; updates := n;
     clicks := clicks r; _title := _title r; _description := _description r;
     _titleHeight := _titleHeight r;
     _descriptionHeight := _descriptionHeight r; _ready := _ready r |}.

Definition set_clicks (l : list ClickHandler) (r : Row) : Row :=
  {| width := width r; height := height r; updates := updates r;
     clicks := l; _title := _title r; _description := _description r;
     _titleHeight := _titleHeight r;
     _descriptionHeight := _descriptionHeight r; _ready := _ready r |}.

(** What [paintEvent] asks of the painter, in order. *)
Inductive PaintOp : Type :=
| PaintRipple (x y ms : Z)
| SetPen (c : Color)
| DrawLeft (t : Text) (x y availableWidth outerw : Z)
| IconPaint (icon : Icon) (x y outerw : Z).

Section RowMethods.

Variable st : Style.
(** [Text::countHeight(width)]: the wrapped height of a text. *)
Variable countHeight : Text -> Z -> Z.
(** Size of a widget that was created and not resized yet. *)
Variable initialSize : Z * Z.

(** [Row::Row(parent, title, description)] *)
Definition Row_new (title description : QString) : Row :=
  {| width := fst initialSize;
     height := snd initialSize;
     updates := 0%nat;
     clicks := [];
     _title := {| text_st := semiboldTextStyle;
                  text_string := title;
                  text_minResizeWidth := boxWideWidth st /i 2 |};
     _description := {| text_st := defaultTextStyle;
                        text_string := description;
                        text_minResizeWidth := boxWideWidth st /i 2 |};
     _titleHeight := 0;
     _descriptionHeight := 0;
     _ready := false |}.

(** [int Row::countAvailableWidth(int newWidth) const] *)
Definition countAvailableWidth (newWidth : Z) (r : Row) : Z :=
  newWidth
  -i margin_left (passportRowPadding st)
  -i margin_right (passportRowPadding st)
  -i icon_width (if _ready r
                 then passportRowReadyIcon st
                 else passportRowEmptyIcon st)
  -i passportRowIconSkip st.

(** [int Row::countAvailableWidth() const] *)
Definition countAvailableWidth0 (r : Row) : Z :=
  countAvailableWidth (width r) r.

(** [int Row::resizeGetHeight(int newWidth)] *)
Definition resizeGetHeight (newWidth : Z) : M Row Z :=
  let! availableWidth := gets (countAvailableWidth newWidth) in
  let! title := gets _title in
  modify (set_titleHeight (countHeight title availableWidth)) ;;
  let! description := gets _description in
  modify (set_descriptionHeight (countHeight description availableWidth)) ;;
  let! titleHeight := gets _titleHeight in
  let! descriptionHeight := gets _descriptionHeight in
  let result := margin_top (passportRowPadding st)
                +i titleHeight
                +i passportRowSkip st
                +i descriptionHeight
                +i margin_bottom (passportRowPadding st) in
  ret result.

(** [update()]: a repaint is requested. *)
Definition update : M Row unit :=
  modify (fun r => set_updates (S (updates r)) r).

(** Modelled from the spec: the "re-layout pass" of the widget base class
    ([resizeToWidth], defined outside this file). The pass asks the widget
    for its height at the new width through the [resizeGetHeight] it
    overrides, and gives the widget that size. *)
Definition resizeToWidth (newWidth : Z) : M Row unit :=
  let! newHeight := resizeGetHeight newWidth in
  modify (set_size newWidth newHeight).

(** [void Row::setReady(bool ready)] *)
Definition setReady (ready : bool) : M Row unit :=
  modify (set_ready ready) ;;
  let! w := gets width in
  resizeToWidth w ;;
  update.

(** Modelled from the spec: [addClickHandler(handler)] of the button base
    class; the handler fires on every later click. *)
Definition addClickHandler (handler : ClickHandler) : M Row unit :=
  modify (fun r => set_clicks (clicks r ++ [handler]) r).

(** [void Row::paintEvent(QPaintEvent *e)], with [ms] the value of
    [getms()]. *)
Definition paintEvent (ms : Z) (r : Row) : list PaintOp :=
  let left := margin_left (passportRowPadding st) in
  let availableWidth := countAvailableWidth0 r in
  let top := margin_top (passportRowPadding st) in
  let top1 := top +i (_titleHeight r +i passportRowSkip st) in
  let top2 :=
    top1 +i (_descriptionHeight r +i margin_bottom (passportRowPadding st)) in
  let icon := if _ready r
              then passportRowReadyIcon st
              else passportRowEmptyIcon st in
  [ PaintRipple 0 0 ms;
    SetPen passportRowTitleFg;
    DrawLeft (_title r) left top availableWidth (width r);
    SetPen passportRowDescriptionFg;
    DrawLeft (_description r) left top1 availableWidth (width r);
    IconPaint icon
      (width r -i margin_right (passportRowPadding st) -i icon_width icon)
      ((height r -i icon_height icon) /i 2)
      (width r) ].

End RowMethods.

(** ** The controller

    [PanelController] is defined outside this file; the form holds a
    pointer to it and uses five of its members. *)

(** What the form reads of the bot: [App::peerName(bot)] and
    [bot->username]. *)
Record UserData : Type := {
  peerName : QString;
  username : QString
}.

Inductive ControllerCall : Type :=
| CallEditScope (index : Z)
| CallSubmitForm.

(** Modelled from the spec: the controller as section 6 of the
    specification describes it to this component. [bot], [scopes] (the
    categories, as the tuples handed to the callback of [fillRows]) and
    [privacyPolicyUrl] are what it supplies; [calls] are the [editScope] and
    [submitForm] calls it has received, oldest first. *)
Record PanelController : Type := {
  bot : UserData;
  scopes : list (QString * QString * bool);
  privacyPolicyUrl : QString;
  calls : list ControllerCall
}.

Definition record_call (c : ControllerCall) (p : PanelController)
  : PanelController :=
  {| bot := bot p; scopes := scopes p;
     privacyPolicyUrl := privacyPolicyUrl p;
     calls := calls p ++ [c] |}.

(** Modelled from the spec: "[editScope(index)]: invoked when row [index]
    is clicked"; the call is received. *)
Definition editScope (index : Z) : M PanelController unit :=
  modify (record_call (CallEditScope index)).

(** Modelled from the spec: "[submitForm()]: invoked when the submit
    control is activated"; the call is received. *)
Definition submitForm : M PanelController unit :=
  modify (record_call CallSubmitForm).

(** Modelled from the spec: "controller invokes the callback once per
    category with (title, description, readyFlag)", in order. *)
Fixpoint for_each {S : Type} (l : list (QString * QString * bool))
    (callback : QString -> QString -> bool -> M S unit) : M S unit :=
  match l with
  | [] => ret tt
  | (title, description, ready) :: l' =>
      callback title description ready ;; for_each l' callback
  end.

(** Modelled from the spec: [fillRows(callback)], over the controller's
    categories. *)
Definition fillRows {S : Type} (p : PanelController)
    (callback : QString -> QString -> bool -> M S unit) : M S unit :=
  for_each (scopes p) callback.

(** The body of each lambda, run on the controller it captured. Activating
    a [UrlClickHandler] opens its url and does not reach the controller. *)
Definition invoke (h : ClickHandler) : M PanelController unit :=
  match h with
  | LambdaEditScope index => editScope index
  | LambdaSubmitForm => submitForm
  | UrlClickHandler _ => ret tt
  end.

(** Modelled from the spec: a click fires the handlers of the clicked
    control synchronously, here in the order they were added. *)
Fixpoint invoke_all (hs : list ClickHandler) : M PanelController unit :=
  match hs with
  | [] => ret tt
  | h :: hs' => invoke h ;; invoke_all hs'
  end.

(** ** Localisation *)

Record Lang : Type := {
  lng_passport_authorize : QString;
  lng_passport_request1 : QString -> QString;          (* lt_bot *)
  lng_passport_request2 : QString;
  lng_passport_header : QString;
  lng_passport_allow : QString -> QString;             (* lt_bot *)
  lng_passport_accept_allow : QString -> QString -> QString;
                                                       (* lt_policy, lt_bot *)
  lng_passport_policy : QString -> QString;            (* lt_bot *)
  textcmdLink : Z -> QString -> QString
}.

Definition isEmpty (s : QString) : bool :=
  match s with
  | EmptyString => true
  | String _ _ => false
  end.

(** ['@' + s] *)
Definition at_sign (s : QString) : QString :=
  String (Ascii.ascii_of_nat 64) s.

(** ** The form *)

Inductive InitType : Type := Simple | Rich.

Inductive LabelStyle : Type :=
| passportPasswordLabelBold
| passportPasswordLabel
| passportFormHeader
| passportFormPolicy.

Record FlatLabel : Type := {
  label_text : QString;
  label_initType : InitType;
  label_st : LabelStyle;
  label_links : list (Z * ClickHandler)       (* setLink(lnkIndex, handler) *)
}.

(** Modelled from the spec: [setLink(lnkIndex, handler)] makes link
    [lnkIndex] of the label clickable, with that handler. *)
Definition setLink (lnkIndex : Z) (h : ClickHandler) (l : FlatLabel)
  : FlatLabel :=
  {| label_text := label_text l; label_initType := label_initType l;
     label_st := label_st l;
     label_links := label_links l ++ [(lnkIndex, h)] |}.

Inductive Margins : Type :=
| noMargins
| passportFormUserpicPadding
| passportFormAbout1Padding
| passportFormAbout2Padding
| passportFormHeaderPadding
| passportFormPolicyPadding.

(** The children of the vertical layout. The [Row] objects are kept once,
    in [_rows]; the layout refers to the k-th of them as [RowChild k], so
    that what is done through [_rows.back()] is done to the layout's child. *)
Inductive Widget : Type :=
| UserpicWrap (bot : UserData)
| IgnoreNaturalWidth (l : FlatLabel)
| Label (l : FlatLabel)
| BoxContentDivider
| RowChild (k : nat).

Record PanelForm : Type := {
  inner : list (Widget * Margins);
  _rows : list Row;
  _submit_text : QString;
  _submit_clicks : list ClickHandler
}.

Definition set_inner (l : list (Widget * Margins)) (f : PanelForm)
  : PanelForm :=
  {| inner := l; _rows := _rows f; _submit_text := _submit_text f;
     _submit_clicks := _submit_clicks f |}.

Definition set_rows (l : list Row) (f : PanelForm) : PanelForm :=
  {| inner := inner f; _rows := l; _submit_text := _submit_text f;
     _submit_clicks := _submit_clicks f |}.

Definition set_submit_clicks (l : list ClickHandler) (f : PanelForm)
  : PanelForm :=
  {| inner := inner f; _rows := _rows f; _submit_text := _submit_text f;
     _submit_clicks := l |}.

(** Modelled from the spec: [inner->add(child, margin)] puts the child
    after those the layout already has. *)
Definition inner_add (w : Widget) (m : Margins) : M PanelForm unit :=
  modify (fun f => set_inner (inner f ++ [(w, m)]) f).

(** [child->method(...)] on the child [inner->add] has just returned. *)
Definition inner_back (method : Widget -> Widget) : M PanelForm unit :=
  modify (fun f =>
    set_inner
      (alter (fun wm => (method (fst wm), snd wm))
         (Nat.pred (length (inner f))) (inner f))
      f).

(** A [FlatLabel] method, on a child that is a label. *)
Definition on_label (method : FlatLabel -> FlatLabel) (w : Widget) : Widget :=
  match w with
  | Label l => Label (method l)
  | _ => w
  end.

(** [_rows.push_back(inner->add(object_ptr<Row>(...)))] *)
Definition rows_push_back_added (r : Row) : M PanelForm unit :=
  let! k := gets (fun f => length (_rows f)) in
  inner_add (RowChild k) noMargins ;;
  modify (fun f => set_rows (_rows f ++ [r]) f).

(** [_rows.back()->method(...)]; used right after a [push_back]. *)
Definition rows_back (method : M Row unit) : M PanelForm unit :=
  modify (fun f =>
    set_rows (alter (exec method) (Nat.pred (length (_rows f))) (_rows f)) f).

(** [_rows[k]->method(...)] *)
Definition rows_at (k : nat) (method : M Row unit) : M PanelForm unit :=
  modify (fun f => set_rows (alter (exec method) k (_rows f)) f).

(** A computation on the form, run where a local [int] lives next to it. *)
Definition on_form {A} (m : M PanelForm A) : M (PanelForm * Z) A :=
  fun s => let (a, f') := m (fst s) in (a, (f', snd s)).

(** [auto index = init; m]: the local lives while [m] runs. *)
Definition with_local {A} (init : Z) (m : M (PanelForm * Z) A)
  : M PanelForm A :=
  fun f => let (a, s) := m (f, init) in (a, fst s).

Section FormMethods.

Variable st : Style.
Variable countHeight : Text -> Z -> Z.
Variable initialSize : Z * Z.
Variable lang : Lang.

(** The lambda handed to [fillRows]; it captures [this] and the local
    [index] by reference, which are the state it runs in. *)
Definition fillRows_callback (title description : QString) (ready : bool)
  : M (PanelForm * Z) unit :=
  on_form (rows_push_back_added (Row_new st initialSize title description)) ;;
  let! index := gets snd in
  on_form (rows_back (addClickHandler (LambdaEditScope index))) ;;
  on_form (rows_back (setReady st countHeight ready)) ;;
  modify (fun s => (fst s, snd s +i 1)).

(** [PanelForm::setupContent()], from the first [inner->add] on. The
    userpic button, the [IgnoreNaturalWidth] wrappers and the paddings are
    kept as what [inner] lists. *)
Definition setupContent (controller : PanelController) : M PanelForm unit :=
  let bot := bot controller in
  inner_add (UserpicWrap bot) passportFormUserpicPadding ;;
  let about1 :=
    {| label_text := lng_passport_request1 lang (peerName bot);
       label_initType := Simple;
       label_st := passportPasswordLabelBold;
       label_links := [] |} in
  inner_add (IgnoreNaturalWidth about1) passportFormAbout1Padding ;;
  let about2 :=
    {| label_text := lng_passport_request2 lang;
       label_initType := Simple;
       label_st := passportPasswordLabel;
       label_links := [] |} in
  inner_add (IgnoreNaturalWidth about2) passportFormAbout2Padding ;;
  inner_add BoxContentDivider noMargins ;;
  inner_add
    (Label {| label_text := lng_passport_header lang;
              label_initType := Simple;
              label_st := passportFormHeader;
              label_links := [] |})
    passportFormHeaderPadding ;;
  (let index := 0 in
   with_local index (fillRows controller fillRows_callback)) ;;
  let policyUrl := privacyPolicyUrl controller in
  let policy :=
    {| label_text :=
         if isEmpty policyUrl
         then lng_passport_allow lang (at_sign (username bot))
         else lng_passport_accept_allow lang
                (textcmdLink lang 1
                   (lng_passport_policy lang (peerName bot)))
                (at_sign (username bot));
       label_initType := Rich;
       label_st := passportFormPolicy;
       label_links := [] |} in
  inner_add (Label policy) passportFormPolicyPadding ;;
  if negb (isEmpty policyUrl)
  then inner_back (on_label (setLink 1 (UrlClickHandler policyUrl)))
  else ret tt.

(** [PanelForm::setupControls()]; the two shadows follow the scroll
    position and are not part of the state kept here. *)
Definition setupControls (controller : PanelController)
  : M PanelForm unit :=
  setupContent controller ;;
  modify (fun f => set_submit_clicks (_submit_clicks f ++ [LambdaSubmitForm]) f).

(** [PanelForm::PanelForm(parent, controller)] *)
Definition PanelForm_new (controller : PanelController) : PanelForm :=
  exec (setupControls controller)
    {| inner := []; _rows := [];
       _submit_text := lng_passport_authorize lang;
       _submit_clicks := [] |}.

(** *** What happens to a constructed form *)

Inductive Event : Type :=
| RowClicked (k : nat)
| SubmitClicked
| RowSetReady (k : nat) (ready : bool)
| WidthChanged (w : Z).

(** Modelled from the spec: what an event of the toolkit does to the form
    and to the controller it points to. A click fires the handlers of the
    clicked row or of the submit control; [RowSetReady] is a call of
    [setReady] on a row; [WidthChanged] is the subscription of
    [setupContent] to the scroll area's width,
    [inner->resizeToWidth(width)], whose layout pass re-lays-out each row
    at that width (rows are added without margins). *)
Definition handle (e : Event) (s : PanelForm * PanelController)
  : PanelForm * PanelController :=
  let (f, c) := s in
  match e with
  | RowClicked k =>
      match _rows f !! k with
      | Some r => (f, exec (invoke_all (clicks r)) c)
      | None => (f, c)
      end
  | SubmitClicked => (f, exec (invoke_all (_submit_clicks f)) c)
  | RowSetReady k ready =>
      (exec (rows_at k (setReady st countHeight ready)) f, c)
  | WidthChanged w =>
      (set_rows (exec (resizeToWidth st countHeight w) <$> _rows f) f, c)
  end.

Definition handle_all (es : list Event) (s : PanelForm * PanelController)
  : PanelForm * PanelController :=
  fold_left (fun s e => handle e s) es s.

End FormMethods.

(** ** The specification's reading of the row and of the form

    These follow the words of the specification (sections 3, 4.1 and 6),
    over the integers; they are what the definitions above are compared
    with. *)

(** "available text width = newWidth - left padding - right padding - icon
    width (icon width depends on current ready state) - icon-to-text gap" *)
Definition spec_availableWidth (st : Style) (ready : bool) (newWidth : Z) : Z :=
  newWidth
  - margin_left (passportRowPadding st)
  - margin_right (passportRowPadding st)
  - (if ready
     then icon_width (passportRowReadyIcon st)
     else icon_width (passportRowEmptyIcon st))
  - passportRowIconSkip st.

(** "total height = top padding + title height + inter-line gap +
    description height + bottom padding" *)
Definition spec_height (st : Style) (titleHeight descriptionHeight : Z) : Z :=
  margin_top (passportRowPadding st)
  + titleHeight
  + passportRowSkip st
  + descriptionHeight
  + margin_bottom (passportRowPadding st).

(** The cached heights are those of the two texts at the width available
    under the row's current ready flag and current width. *)
Definition layout_current (st : Style) (countHeight : Text -> Z -> Z)
    (r : Row) : Prop :=
  _titleHeight r = countHeight (_title r) (countAvailableWidth0 st r) /\
  _descriptionHeight r
  = countHeight (_description r) (countAvailableWidth0 st r).

(** The two ways the layout of a row is run. *)
Inductive RowOp : Type :=
| OpSetReady (ready : bool)
| OpResize (newWidth : Z).

Definition apply_op (st : Style) (countHeight : Text -> Z -> Z)
    (op : RowOp) (r : Row) : Row :=
  match op with
  | OpSetReady ready => exec (setReady st countHeight ready) r
  | OpResize newWidth => exec (resizeToWidth st countHeight newWidth) r
  end.

(** The row the specification describes for the [i]-th tuple: built from
    the tuple's title and description, clicking it reports [i], and its
    ready flag is then set to the tuple's. *)
Definition spec_row (st : Style) (countHeight : Text -> Z -> Z)
    (initialSize : Z * Z) (i : nat) (x : QString * QString * bool) : Row :=
  exec (setReady st countHeight (snd x))
    (exec (addClickHandler (LambdaEditScope (to_int (Z.of_nat i))))
       (Row_new st initialSize (fst (fst x)) (snd (fst x)))).

(** The fixed children of the layout that come before the rows: the
    userpic, the two "about" labels, the divider and the header. *)
Definition spec_fixed_children (lang : Lang) (bot : UserData)
  : list (Widget * Margins) :=
  [ (UserpicWrap bot, passportFormUserpicPadding);
    (IgnoreNaturalWidth
       {| label_text := lng_passport_request1 lang (peerName bot);
          label_initType := Simple;
          label_st := passportPasswordLabelBold;
          label_links := [] |},
     passportFormAbout1Padding);
    (IgnoreNaturalWidth
       {| label_text := lng_passport_request2 lang;
          label_initType := Simple;
          label_st := passportPasswordLabel;
          label_links := [] |},
     passportFormAbout2Padding);
    (BoxContentDivider, noMargins);
    (Label {| label_text := lng_passport_header lang;
              label_initType := Simple;
              label_st := passportFormHeader;
              label_links := [] |},
     passportFormHeaderPadding) ].

(** "if present, a policy label becomes a clickable link to it; if absent,
    a different, non-linked message is shown" *)
Definition spec_policy_label (lang : Lang) (p : PanelController) : FlatLabel :=
  match privacyPolicyUrl p with
  | EmptyString =>
      {| label_text := lng_passport_allow lang (at_sign (username (bot p)));
         label_initType := Rich;
         label_st := passportFormPolicy;
         label_links := [] |}
  | String _ _ =>
      {| label_text :=
           lng_passport_accept_allow lang
             (textcmdLink lang 1
                (lng_passport_policy lang (peerName (bot p))))
             (at_sign (username (bot p)));
         label_initType := Rich;
         label_st := passportFormPolicy;
         label_links := [(1, UrlClickHandler (privacyPolicyUrl p))] |}
  end.

(** The rows among the children of the layout, in the layout's order. *)
Fixpoint row_children (l : list (Widget * Margins)) : list nat :=
  match l with
  | [] => []
  | (RowChild k, _) :: l' => k :: row_children l'
  | _ :: l' => row_children l'
  end.

(** ** A concrete instance

    A style, a text shaper, texts and a controller to run the definitions
    on. The shaper wraps 7-pixel characters into lines of 20 (semibold) or
    18 pixels. *)

Section Sample.

Local Open Scope string_scope.

Definition sampleStyle : Style :=
  {| passportRowPadding :=
       {| margin_left := 22; margin_top := 8;
          margin_right := 22; margin_bottom := 8 |};
     passportRowSkip := 2;
     passportRowIconSkip := 10;
     passportRowReadyIcon := {| icon_width := 24; icon_height := 24 |};
     passportRowEmptyIcon := {| icon_width := 18; icon_height := 18 |};
     boxWideWidth := 364 |}.

Definition sampleCountHeight (t : Text) (w : Z) : Z :=
  let lineHeight := match text_st t with
                    | semiboldTextStyle => 20
                    | defaultTextStyle => 18
                    end in
  let need := 7 * Z.of_nat (String.length (text_string t)) in
  let avail := Z.max 1 w in
  lineHeight * Z.max 1 ((need + avail - 1) / avail).

Definition sampleInitialSize : Z * Z := (100, 30).

Definition sampleLang : Lang :=
  {| lng_passport_authorize := "Authorize";
     lng_passport_request1 := fun b => b ++ " requests access";
     lng_passport_request2 := "to your personal data";
     lng_passport_header := "Requested information";
     lng_passport_allow := fun b => "You allow " ++ b;
     lng_passport_accept_allow :=
       fun p b => "You accept the " ++ p ++ " and allow " ++ b;
     lng_passport_policy := fun b => b ++ " privacy policy";
     textcmdLink := fun _ s => "[" ++ s ++ "]" |}.

Definition sampleBot : UserData :=
  {| peerName := "Sample Bot"; username := "samplebot" |}.

Definition sampleController (url : QString) : PanelController :=
  {| bot := sampleBot;
     scopes := [("Personal details", "Name, date of birth", false);
                ("Address", "Residential address", true);
                ("Phone number", "Not provided", false)];
     privacyPolicyUrl := url;
     calls := [] |}.

Definition sampleRow : Row :=
  Row_new sampleStyle sampleInitialSize
    "Personal details" "Name, date of birth".

Definition samplePolicyUrl : QString := "https://example.org/policy".

(** A controller with no category and no policy url. *)
Definition emptyController : PanelController :=
  {| bot := sampleBot;
     scopes := [];
     privacyPolicyUrl := EmptyString;
     calls := [] |}.

End Sample.

(** ** Geometry of the controls of the form

    [PanelForm::updateControlsGeometry], the two shadow toggles of
    [PanelForm::setupControls] and the centring of the userpic in
    [PanelForm::setupContent]. *)

(** Position (in the parent) and size of a widget. *)
Record Geometry : Type := {
  geo_x : Z;
  geo_y : Z;
  geo_width : Z;
  geo_height : Z
}.

(** [setGeometry(x, y, w, h)] *)
Definition setGeometry (x y w h : Z) : M Geometry unit :=
  modify (fun _ =>
    {| geo_x := x; geo_y := y; geo_width := w; geo_height := h |}).

(** [move(x, y)] *)
Definition move (x y : Z) : M Geometry unit :=
  modify (fun g =>
    {| geo_x := x; geo_y := y;
       geo_width := geo_width g; geo_height := geo_height g |}).

(** Modelled from the spec: [moveToLeft(x, y)] of the widget base class
    puts the widget [x] from the left edge of its parent, at [y]. *)
Definition moveToLeft (x y : Z) : M Geometry unit := move x y.

(** Modelled from the spec: the "re-layout pass" ([resizeToWidth]) of a
    control other than a row. [heightAt newWidth g] is what the control's
    own [resizeGetHeight(newWidth)] returns in geometry [g]; the control
    takes the new width and that height. *)
Definition control_resizeToWidth (heightAt : Z -> Geometry -> Z)
    (newWidth : Z) : M Geometry unit :=
  modify (fun g =>
    {| geo_x := geo_x g; geo_y := geo_y g;
       geo_width := newWidth; geo_height := heightAt newWidth g |}).

(** The form's own size and the geometry of its four controls. *)
Record PanelControls : Type := {
  panel_width : Z;                 (* width() *)
  panel_height : Z;                (* height() *)
  _scroll : Geometry;
  _topShadow : Geometry;
  _bottomShadow : Geometry;
  _submit : Geometry;
  scroll_bars_updates : nat        (* _scroll->updateBars() calls so far *)
}.

Definition on_scroll (m : M Geometry unit) : M PanelControls unit :=
  modify (fun p =>
    {| panel_width := panel_width p; panel_height := panel_height p;
       _scroll := exec m (_scroll p); _topShadow := _topShadow p;
       _bottomShadow := _bottomShadow p; _submit := _submit p;
       scroll_bars_updates := scroll_bars_updates p |}).

Definition on_topShadow (m : M Geometry unit) : M PanelControls unit :=
  modify (fun p =>
    {| panel_width := panel_width p; panel_height := panel_height p;
       _scroll := _scroll p; _topShadow := exec m (_topShadow p);
       _bottomShadow := _bottomShadow p; _submit := _submit p;
       scroll_bars_updates := scroll_bars_updates p |}).

Definition on_bottomShadow (m : M Geometry unit) : M PanelControls unit :=
  modify (fun p =>
    {| panel_width := panel_width p; panel_height := panel_height p;
       _scroll := _scroll p; _topShadow := _topShadow p;
       _bottomShadow := exec m (_bottomShadow p); _submit := _submit p;
       scroll_bars_updates := scroll_bars_updates p |}).

Definition on_submit (m : M Geometry unit) : M PanelControls unit :=
  modify (fun p =>
    {| panel_width := panel_width p; panel_height := panel_height p;
       _scroll := _scroll p; _topShadow := _topShadow p;
       _bottomShadow := _bottomShadow p; _submit := exec m (_submit p);
       scroll_bars_updates := scroll_bars_updates p |}).

(** [_scroll->updateBars()] *)
Definition updateBars : M PanelControls unit :=
  modify (fun p =>
    {| panel_width := panel_width p; panel_height := panel_height p;
       _scroll := _scroll p; _topShadow := _topShadow p;
       _bottomShadow := _bottomShadow p; _submit := _submit p;
       scroll_bars_updates := S (scroll_bars_updates p) |}).

Section ControlsMethods.

(** [st::lineWidth] *)
Variable lineWidth : Z.
(** [resizeGetHeight] of a shadow and of the submit button. *)
Variable shadowHeightAt : Z -> Geometry -> Z.
Variable submitHeightAt : Z -> Geometry -> Z.

(** [void PanelForm::updateControlsGeometry()] *)
Definition updateControlsGeometry : M PanelControls unit :=
  let! submitTop :=
    gets (fun p => panel_height p -i geo_height (_submit p)) in
  let! width := gets panel_width in
  on_scroll (setGeometry 0 0 width submitTop) ;;
  on_topShadow (control_resizeToWidth shadowHeightAt width) ;;
  on_topShadow (moveToLeft 0 0) ;;
  on_bottomShadow (control_resizeToWidth shadowHeightAt width) ;;
  on_bottomShadow (moveToLeft 0 (submitTop -i lineWidth)) ;;
  on_submit (control_resizeToWidth submitHeightAt width) ;;
  on_submit (moveToLeft 0 submitTop) ;;
  updateBars.

(** [void PanelForm::resizeEvent(QResizeEvent *e)] *)
Definition resizeEvent : M PanelControls unit := updateControlsGeometry.

End ControlsMethods.

(** The value [_1 > 0] hands to [_topShadow->toggleOn] for a scroll top. *)
Definition topShadowToggled (scrollTop : Z) : bool := 0 <? scrollTop.

(** The value [_1 + _2 < _3] hands to [_bottomShadow->toggleOn] for a scroll
    top, a scroll area height and a content height. *)
Definition bottomShadowToggled (scrollTop scrollHeight innerHeight : Z)
  : bool :=
  scrollTop +i scrollHeight <? innerHeight.

(** The lambda [setupContent] subscribes to the width of the userpic
    wrap, run on the userpic button:
    [_userpic->move((width - _userpic->width()) / 2, _userpic->y())]. *)
Definition userpic_on_width (width : Z) : M Geometry unit :=
  let! userpicWidth := gets geo_width in
  let! y := gets geo_y in
  move ((width -i userpicWidth) /i 2) y.

(** ** Observations used to state properties *)




(** The row's layout and widget height are those of its flag and width. *)
Definition laid_out (st : Style) (countHeight : Text -> Z -> Z) (r : Row)
  : Prop :=
  layout_current st countHeight r
  /\ height r = eval (resizeGetHeight st countHeight (width r)) r.

(** Title and description of a row, as strings. *)
Definition row_texts (r : Row) : QString * QString :=
  (text_string (_title r), text_string (_description r)).

(** What the controller is to receive for an event, in a form of [rows]
    rows. *)
Definition calls_of_event (rows : nat) (e : Event) : list ControllerCall :=
  match e with
  | RowClicked k =>
      if (k <? rows)%nat then [CallEditScope (Z.of_nat k)] else []
  | SubmitClicked => [CallSubmitForm]
  | RowSetReady _ _ => []
  | WidthChanged _ => []
  end.

(** The ready flag of row [i] after the events, from the flag it had. *)
Definition flag_after (i : nat) (es : list Event) (ready : bool) : bool :=
  fold_left (fun b e => match e with
                        | RowSetReady k b' => if (k =? i)%nat then b' else b
                        | _ => b
                        end) es ready.

(** ** More of the concrete instance *)

(** The sample style with a ready icon as wide as the empty one. *)
Definition sampleStyleSameIcons : Style :=
  {| passportRowPadding := passportRowPadding sampleStyle;
     passportRowSkip := passportRowSkip sampleStyle;
     passportRowIconSkip := passportRowIconSkip sampleStyle;
     passportRowReadyIcon := passportRowEmptyIcon sampleStyle;
     passportRowEmptyIcon := passportRowEmptyIcon sampleStyle;
     boxWideWidth := boxWideWidth sampleStyle |}.

(** The sample row, laid out at width 300. *)
Definition sampleRow300 : Row :=
  exec (resizeToWidth sampleStyle sampleCountHeight 300) sampleRow.

(** A form of 400 by 600 whose controls have not been placed yet, with a
    submit button 50 high that keeps its height and shadows one line
    high. *)
Definition sampleControls : PanelControls :=
  {| panel_width := 400;
     panel_height := 600;
     _scroll := {| geo_x := 0; geo_y := 0;
                   geo_width := 100; geo_height := 30 |};
     _topShadow := {| geo_x := 0; geo_y := 0;
                      geo_width := 100; geo_height := 30 |};
     _bottomShadow := {| geo_x := 0; geo_y := 0;
                         geo_width := 100; geo_height := 30 |};
     _submit := {| geo_x := 0; geo_y := 0;
                   geo_width := 100; geo_height := 50 |};
     scroll_bars_updates := 0%nat |}.

Definition sampleLineWidth : Z := 1.

Definition sampleShadowHeightAt (newWidth : Z) (g : Geometry) : Z :=
  sampleLineWidth.

Definition sampleSubmitHeightAt (newWidth : Z) (g : Geometry) : Z :=
  geo_height g.

(** * Properties *)

(** ** Machine integers *)

(** Closes [fits_int z] for a closed [z]. *)
Ltac fits_by_computation :=
  split; apply Z.leb_le; vm_compute; reflexivity.

Lemma to_int_fits (z : Z) : fits_int z -> to_int z = z.
Proof.
  unfold fits_int, int_min, int_max, to_int. intros H.
  rewrite Z.mod_small; lia.
Qed.

Lemma to_int_range (z : Z) : fits_int (to_int z).
Proof.
  unfold fits_int, int_min, int_max, to_int.
  pose proof (Z.mod_pos_bound (z + 2 ^ 31) (2 ^ 32)). lia.
Qed.

Lemma to_int_add_l (a b : Z) : to_int (to_int a + b) = to_int (a + b).
Proof.
  unfold to_int. f_equal.
  replace ((a + 2 ^ 31) mod 2 ^ 32 - 2 ^ 31 + b + 2 ^ 31)
    with ((a + 2 ^ 31) mod 2 ^ 32 + b) by lia.
  rewrite Zplus_mod_idemp_l. f_equal. lia.
Qed.

Lemma to_int_sub_l (a b : Z) : to_int (to_int a - b) = to_int (a - b).
Proof.
  replace (to_int a - b) with (to_int a + - b) by lia.
  rewrite to_int_add_l. f_equal.
Qed.

Lemma to_int_0 : to_int (Z.of_nat 0) = 0.
Proof. now apply to_int_fits. Qed.

Lemma to_int_succ (n : nat) :
  to_int (Z.of_nat n) +i 1 = to_int (Z.of_nat (S n)).
Proof.
  unfold int_add. rewrite to_int_add_l. f_equal. lia.
Qed.

Lemma int_sum5 (a b c d e : Z) :
  a +i b +i c +i d +i e = to_int (a + b + c + d + e).
Proof.
  unfold int_add.
  rewrite (to_int_add_l (a + b) c).
  rewrite (to_int_add_l (a + b + c) d).
  rewrite (to_int_add_l (a + b + c + d) e).
  reflexivity.
Qed.

Lemma int_diff5 (a b c d e : Z) :
  a -i b -i c -i d -i e = to_int (a - b - c - d - e).
Proof.
  unfold int_sub.
  rewrite (to_int_sub_l (a - b) c).
  rewrite (to_int_sub_l (a - b - c) d).
  rewrite (to_int_sub_l (a - b - c - d) e).
  reflexivity.
Qed.

(** From here on [to_int] is used through the lemmas above only. *)
Opaque to_int.

(** ** The row *)

Section RowProperties.

Variable st : Style.
Variable countHeight : Text -> Z -> Z.

Lemma countAvailableWidth_spec (newWidth : Z) (r : Row) :
  countAvailableWidth st newWidth r
  = to_int (spec_availableWidth st (_ready r) newWidth).
Proof.
  unfold countAvailableWidth, spec_availableWidth.
  rewrite int_diff5. now destruct (_ready r).
Qed.

Lemma countAvailableWidth_ready (newWidth : Z) (r1 r2 : Row) :
  _ready r1 = _ready r2 ->
  countAvailableWidth st newWidth r1 = countAvailableWidth st newWidth r2.
Proof. unfold countAvailableWidth. now intros ->. Qed.

(** The state and value [resizeGetHeight] produces, operator by operator. *)
Lemma resizeGetHeight_unfold (newWidth : Z) (r : Row) :
  let availableWidth := countAvailableWidth st newWidth r in
  let titleHeight := countHeight (_title r) availableWidth in
  let descriptionHeight := countHeight (_description r) availableWidth in
  resizeGetHeight st countHeight newWidth r
  = ((margin_top (passportRowPadding st) +i titleHeight +i passportRowSkip st
      +i descriptionHeight +i margin_bottom (passportRowPadding st)),
     set_descriptionHeight descriptionHeight
       (set_titleHeight titleHeight r)).
Proof. reflexivity. Qed.

Lemma resizeGetHeight_value (newWidth : Z) (r : Row) :
  let availableWidth := countAvailableWidth st newWidth r in
  eval (resizeGetHeight st countHeight newWidth) r
  = to_int (spec_height st (countHeight (_title r) availableWidth)
              (countHeight (_description r) availableWidth)).
Proof.
  unfold eval. rewrite resizeGetHeight_unfold. cbn [fst].
  apply int_sum5.
Qed.

Lemma resizeGetHeight_state (newWidth : Z) (r : Row) :
  let availableWidth := countAvailableWidth st newWidth r in
  exec (resizeGetHeight st countHeight newWidth) r
  = set_descriptionHeight (countHeight (_description r) availableWidth)
      (set_titleHeight (countHeight (_title r) availableWidth) r).
Proof. reflexivity. Qed.

(** C1. For every row and every [newWidth], [resizeGetHeight newWidth]
    takes as available text width [newWidth] minus the left padding, the
    right padding, the width of the icon the ready flag selects and the
    icon-to-text gap; it caches the heights of title and description
    wrapped at that width and returns top padding + title height +
    inter-line gap + description height + bottom padding. The arithmetic
    is that of [int]; when the width and the sum fit a 32-bit [int] they
    are the integers computed exactly. *)
Theorem resizeGetHeight_spec (r : Row) (newWidth : Z) :
  let availableWidth :=
    to_int (spec_availableWidth st (_ready r) newWidth) in
  let titleHeight := countHeight (_title r) availableWidth in
  let descriptionHeight := countHeight (_description r) availableWidth in
  countAvailableWidth st newWidth r = availableWidth
  /\ resizeGetHeight st countHeight newWidth r
     = (to_int (spec_height st titleHeight descriptionHeight),
        set_descriptionHeight descriptionHeight
          (set_titleHeight titleHeight r))
  /\ (fits_int (spec_availableWidth st (_ready r) newWidth) ->
      availableWidth = spec_availableWidth st (_ready r) newWidth)
  /\ (fits_int (spec_height st titleHeight descriptionHeight) ->
      eval (resizeGetHeight st countHeight newWidth) r
      = spec_height st titleHeight descriptionHeight).
Proof.
  intros availableWidth titleHeight descriptionHeight.
  assert (Ha : countAvailableWidth st newWidth r = availableWidth)
    by apply countAvailableWidth_spec.
  assert (Hr : resizeGetHeight st countHeight newWidth r
               = (to_int (spec_height st titleHeight descriptionHeight),
                  set_descriptionHeight descriptionHeight
                    (set_titleHeight titleHeight r))).
  { rewrite resizeGetHeight_unfold. cbv zeta.
    rewrite int_sum5, Ha. reflexivity. }
  split; [exact Ha|]. split; [exact Hr|]. split.
  - intros Hfit. now apply to_int_fits.
  - intros Hfit. unfold eval. rewrite Hr. now apply to_int_fits.
Qed.

(** What [resizeGetHeight] leaves alone. *)
Lemma resizeGetHeight_frame (newWidth : Z) (r : Row) :
  let r' := exec (resizeGetHeight st countHeight newWidth) r in
  _title r' = _title r /\ _description r' = _description r
  /\ _ready r' = _ready r /\ width r' = width r /\ height r' = height r
  /\ updates r' = updates r /\ clicks r' = clicks r.
Proof. repeat split; reflexivity. Qed.

(** C6. The value [resizeGetHeight newWidth] returns depends on the row
    only through its ready flag, title and description (two rows that agree
    on these get the same value, whatever their cached heights and
    geometry), running it again gives the same value, and it changes
    nothing of the row but the two cached heights. *)
Theorem resizeGetHeight_pure (r1 r2 : Row) (newWidth : Z) :
  _ready r1 = _ready r2 ->
  _title r1 = _title r2 ->
  _description r1 = _description r2 ->
  eval (resizeGetHeight st countHeight newWidth) r1
  = eval (resizeGetHeight st countHeight newWidth) r2
  /\ (let r1' := exec (resizeGetHeight st countHeight newWidth) r1 in
      eval (resizeGetHeight st countHeight newWidth) r1'
      = eval (resizeGetHeight st countHeight newWidth) r1
      /\ exec (resizeGetHeight st countHeight newWidth) r1' = r1'
      /\ r1' = set_descriptionHeight (_descriptionHeight r1')
                 (set_titleHeight (_titleHeight r1') r1)
      /\ _title r1' = _title r1
      /\ _description r1' = _description r1
      /\ _ready r1' = _ready r1).
Proof.
  intros Hready Htitle Hdescription. split.
  - rewrite !resizeGetHeight_value.
    rewrite (countAvailableWidth_ready newWidth r1 r2 Hready).
    now rewrite Htitle, Hdescription.
  - repeat split; reflexivity.
Qed.

(** C9. When the text shaper returns non-negative heights, at every width
    [W] (so from any minimum on) at which the row's height fits an [int],
    [resizeGetHeight W] returns at least top padding + bottom padding +
    inter-line gap. *)
Theorem resizeGetHeight_lower_bound (r : Row) (W : Z) :
  (forall (t : Text) (w : Z), 0 <= countHeight t w) ->
  fits_int
    (spec_height st
       (countHeight (_title r) (countAvailableWidth st W r))
       (countHeight (_description r) (countAvailableWidth st W r))) ->
  margin_top (passportRowPadding st)
  + margin_bottom (passportRowPadding st)
  + passportRowSkip st
  <= eval (resizeGetHeight st countHeight W) r.
Proof.
  intros Hnonneg Hfit.
  rewrite resizeGetHeight_value. cbv zeta.
  rewrite (to_int_fits _ Hfit). unfold spec_height.
  pose proof (Hnonneg (_title r) (countAvailableWidth st W r)).
  pose proof (Hnonneg (_description r) (countAvailableWidth st W r)).
  lia.
Qed.

(** The row [setReady] leaves behind. *)
Lemma setReady_unfold (ready : bool) (r : Row) :
  exec (setReady st countHeight ready) r
  = set_updates (S (updates r))
      (exec (resizeToWidth st countHeight (width r)) (set_ready ready r)).
Proof. reflexivity. Qed.

Lemma resizeToWidth_unfold (newWidth : Z) (r : Row) :
  exec (resizeToWidth st countHeight newWidth) r
  = set_size newWidth (eval (resizeGetHeight st countHeight newWidth) r)
      (exec (resizeGetHeight st countHeight newWidth) r).
Proof. reflexivity. Qed.

Lemma setReady_fields (ready : bool) (r : Row) :
  let r' := exec (setReady st countHeight ready) r in
  let availableWidth := countAvailableWidth st (width r) r' in
  _ready r' = ready
  /\ width r' = width r
  /\ _title r' = _title r
  /\ _description r' = _description r
  /\ clicks r' = clicks r
  /\ updates r' = S (updates r)
  /\ _titleHeight r' = countHeight (_title r) availableWidth
  /\ _descriptionHeight r' = countHeight (_description r) availableWidth
  /\ height r'
     = eval (resizeGetHeight st countHeight (width r)) (set_ready ready r).
Proof. repeat split; reflexivity. Qed.

(** The layout [setReady] leaves behind, in the specification's terms. *)
Lemma setReady_layout (ready : bool) (r : Row) :
  let r' := exec (setReady st countHeight ready) r in
  let availableWidth := to_int (spec_availableWidth st ready (width r)) in
  let titleHeight := countHeight (_title r) availableWidth in
  let descriptionHeight := countHeight (_description r) availableWidth in
  _titleHeight r' = titleHeight
  /\ _descriptionHeight r' = descriptionHeight
  /\ height r' = to_int (spec_height st titleHeight descriptionHeight).
Proof.
  intros r' availableWidth titleHeight descriptionHeight.
  destruct (setReady_fields ready r)
    as (Hready & _ & _ & _ & _ & _ & Hth & Hdh & Hh).
  fold r' in Hready, Hth, Hdh, Hh.
  assert (Ha : countAvailableWidth st (width r) r' = availableWidth).
  { rewrite countAvailableWidth_spec, Hready. reflexivity. }
  rewrite Ha in Hth, Hdh. split; [exact Hth|]. split; [exact Hdh|].
  rewrite Hh, resizeGetHeight_value. cbv zeta.
  rewrite (countAvailableWidth_ready (width r) (set_ready ready r) r')
    by (now rewrite Hready).
  rewrite Ha. reflexivity.
Qed.

(** C5. For every row and every [b], [setReady b] sets the ready flag to
    [b], runs the layout at the row's current width (whatever the flag was
    before and whatever the icon widths are: the cached heights and the
    height afterwards are those of the texts at the width available under
    [b]) and requests a repaint. Calling it a second time with the same [b]
    changes nothing of the row but the count of repaint requests. *)
Theorem setReady_spec (r : Row) (b : bool) :
  let r' := exec (setReady st countHeight b) r in
  let availableWidth :=
    to_int (spec_availableWidth st b (width r)) in
  let titleHeight := countHeight (_title r) availableWidth in
  let descriptionHeight := countHeight (_description r) availableWidth in
  _ready r' = b
  /\ width r' = width r
  /\ _titleHeight r' = titleHeight
  /\ _descriptionHeight r' = descriptionHeight
  /\ height r' = to_int (spec_height st titleHeight descriptionHeight)
  /\ (updates r < updates r')%nat
  /\ (let r'' := exec (setReady st countHeight b) r' in
      r'' = set_updates (S (updates r')) r'
      /\ _ready r'' = _ready r'
      /\ _titleHeight r'' = _titleHeight r'
      /\ _descriptionHeight r'' = _descriptionHeight r').
Proof.
  intros r' availableWidth titleHeight descriptionHeight.
  destruct (setReady_fields b r)
    as (Hready & Hwidth & _ & _ & _ & Hupd & _).
  destruct (setReady_layout b r) as (Hth & Hdh & Hheight).
  fold r' in Hready, Hwidth, Hupd, Hth, Hdh, Hheight.
  split; [exact Hready|]. split; [exact Hwidth|].
  split; [exact Hth|]. split; [exact Hdh|].
  split; [exact Hheight|]. split; [rewrite Hupd; lia|].
  assert (Hagain : exec (setReady st countHeight b) r'
                   = set_updates (S (updates r')) r').
  { reflexivity. }
  cbv zeta. rewrite Hagain. repeat split; reflexivity.
Qed.

Lemma apply_op_layout_current (op : RowOp) (r : Row) :
  layout_current st countHeight (apply_op st countHeight op r).
Proof. destruct op; split; reflexivity. Qed.

(** Re-running the layout of a row whose cache is current changes
    nothing. *)
Lemma resizeGetHeight_fixpoint (r : Row) :
  layout_current st countHeight r ->
  exec (resizeGetHeight st countHeight (width r)) r = r.
Proof.
  intros [Hth Hdh]. rewrite resizeGetHeight_state. cbv zeta.
  unfold countAvailableWidth0 in Hth, Hdh. rewrite <- Hth, <- Hdh.
  now destruct r.
Qed.

(** C10. At any point of any history of [setReady] calls and resizes,
    right after such a call the cached title and description heights are
    the wrapped heights of title and description at the width available
    under the row's current ready flag and current width; [paintEvent]
    then draws what it would draw had the layout been recomputed on the
    spot, with the description below a title of that height. *)
Theorem layout_current_invariant (history : list RowOp) (op : RowOp)
    (r : Row) (ms : Z) :
  let r' :=
    apply_op st countHeight op
      (fold_left (fun r o => apply_op st countHeight o r) history r) in
  let availableWidth :=
    to_int (spec_availableWidth st (_ready r') (width r')) in
  layout_current st countHeight r'
  /\ _titleHeight r' = countHeight (_title r') availableWidth
  /\ _descriptionHeight r' = countHeight (_description r') availableWidth
  /\ match op with
     | OpSetReady ready => _ready r' = ready
     | OpResize newWidth => width r' = newWidth
     end
  /\ paintEvent st ms r'
     = paintEvent st ms (exec (resizeGetHeight st countHeight (width r')) r')
  /\ nth_error (paintEvent st ms r') 4
     = Some (DrawLeft (_description r')
               (margin_left (passportRowPadding st))
               (margin_top (passportRowPadding st)
                +i (countHeight (_title r') availableWidth
                    +i passportRowSkip st))
               availableWidth (width r')).
Proof.
  generalize (fold_left (fun r o => apply_op st countHeight o r) history r).
  clear r. intros r r' availableWidth.
  pose proof (apply_op_layout_current op r) as Hl. fold r' in Hl.
  assert (Ha : countAvailableWidth0 st r' = availableWidth)
    by apply countAvailableWidth_spec.
  destruct Hl as [Hth Hdh]. rewrite Ha in Hth, Hdh.
  split; [split; now rewrite Ha|].
  split; [exact Hth|]. split; [exact Hdh|].
  split; [now destruct op|].
  split.
  - now rewrite resizeGetHeight_fixpoint
      by apply apply_op_layout_current.
  - unfold paintEvent. cbn [nth_error]. now rewrite Ha, Hth.
Qed.

(** C4. For a row that is not ready and whose height is the one the
    layout computes at its width, setting the flag to true and back to
    false, each call re-running the layout, gives the height it had (and
    the cached heights it had, when these were current). In general the
    height after [setReady b] is the layout's height at the width available
    under [b]; with a ready icon as wide as the empty one, the height is
    unchanged in between as well. *)
Theorem setReady_toggle_restores (r0 : Row) :
  _ready r0 = false ->
  height r0 = eval (resizeGetHeight st countHeight (width r0)) r0 ->
  let r1 := exec (setReady st countHeight true) r0 in
  let r2 := exec (setReady st countHeight false) r1 in
  height r2 = height r0
  /\ width r2 = width r0
  /\ _ready r2 = false
  /\ (layout_current st countHeight r0 ->
      _titleHeight r2 = _titleHeight r0
      /\ _descriptionHeight r2 = _descriptionHeight r0)
  /\ (forall (b : bool) (r : Row),
        let availableWidth := to_int (spec_availableWidth st b (width r)) in
        height (exec (setReady st countHeight b) r)
        = to_int (spec_height st
                    (countHeight (_title r) availableWidth)
                    (countHeight (_description r) availableWidth)))
  /\ (icon_width (passportRowReadyIcon st)
      = icon_width (passportRowEmptyIcon st) ->
      height r1 = height r0).
Proof.
  intros Hready Hheight r1 r2.
  assert (Hgen : forall (b : bool) (r : Row),
             height (exec (setReady st countHeight b) r)
             = to_int (spec_height st
                 (countHeight (_title r)
                    (to_int (spec_availableWidth st b (width r))))
                 (countHeight (_description r)
                    (to_int (spec_availableWidth st b (width r)))))).
  { intros b r. now destruct (setReady_layout b r) as (_ & _ & H). }
  assert (H0 : height r0
               = to_int (spec_height st
                   (countHeight (_title r0)
                      (to_int (spec_availableWidth st false (width r0))))
                   (countHeight (_description r0)
                      (to_int (spec_availableWidth st false (width r0)))))).
  { rewrite Hheight, resizeGetHeight_value. cbv zeta.
    now rewrite countAvailableWidth_spec, Hready. }
  split; [|split; [reflexivity|split; [reflexivity|split; [|split]]]].
  - unfold r2. rewrite Hgen, H0. reflexivity.
  - intros [Hth Hdh]. unfold countAvailableWidth0 in Hth, Hdh.
    rewrite countAvailableWidth_spec, Hready in Hth, Hdh.
    destruct (setReady_layout false r1) as (Hth2 & Hdh2 & _).
    fold r2 in Hth2, Hdh2. rewrite Hth2, Hdh2, Hth, Hdh. split; reflexivity.
  - exact Hgen.
  - intros Hicon. unfold r1. rewrite Hgen, H0.
    unfold spec_availableWidth. now rewrite Hicon.
Qed.

End RowProperties.

(** ** The state monad *)

Lemma run_pair {S A : Type} (m : M S A) (s : S) : m s = (eval m s, exec m s).
Proof. unfold eval, exec. now destruct (m s). Qed.

Lemma exec_bind {S A B : Type} (m : M S A) (k : A -> M S B) (s : S) :
  exec (bind m k) s = exec (k (eval m s)) (exec m s).
Proof. unfold exec, eval, bind. now destruct (m s). Qed.

(** ** The form *)

Lemma alter_back {A : Type} (g : A -> A) (l : list A) (x : A) :
  alter g (Nat.pred (length (l ++ [x]))) (l ++ [x]) = l ++ [g x].
Proof.
  rewrite length_app. cbn [length].
  replace (Nat.pred (length l + 1)) with (length l + 0)%nat by lia.
  now rewrite alter_app_r.
Qed.

Lemma alter_preserves {A B : Type} (p : A -> B) (g : A -> A) (k : nat)
    (l : list A) :
  (forall x, p (g x) = p x) -> p <$> alter g k l = p <$> l.
Proof.
  intros Hg. revert k. induction l as [|x l IH]; intros [|k]; cbn;
    try reflexivity.
  - now rewrite Hg.
  - f_equal. apply IH.
Qed.

Section FormProperties.

Variable st : Style.
Variable countHeight : Text -> Z -> Z.
Variable initialSize : Z * Z.
Variable lang : Lang.

(** One invocation of the callback of [fillRows]. *)
Lemma fillRows_callback_step (title description : QString) (ready : bool)
    (f : PanelForm) (index : Z) :
  exec (fillRows_callback st countHeight initialSize title description ready)
    (f, index)
  = ({| inner := inner f ++ [(RowChild (length (_rows f)), noMargins)];
        _rows :=
          _rows f
          ++ [exec (setReady st countHeight ready)
                (exec (addClickHandler (LambdaEditScope index))
                   (Row_new st initialSize title description))];
        _submit_text := _submit_text f;
        _submit_clicks := _submit_clicks f |},
     index +i 1).
Proof.
  unfold exec at 1.
  cbv beta iota zeta delta
    [fillRows_callback bind on_form rows_push_back_added rows_back inner_add
     modify gets set_rows set_inner fst snd
     inner _rows _submit_text _submit_clicks].
  rewrite !alter_back. reflexivity.
Qed.

(** All the invocations [fillRows] makes, from any form and any count. *)
Lemma fillRows_state (l : list (QString * QString * bool)) :
  forall (f : PanelForm) (k : nat),
    exec (for_each l (fillRows_callback st countHeight initialSize))
      (f, to_int (Z.of_nat k))
    = ({| inner :=
            inner f
            ++ imap (fun i _ => (RowChild (length (_rows f) + i), noMargins)) l;
          _rows :=
            _rows f
            ++ imap (fun i x =>
                       spec_row st countHeight initialSize (k + i) x) l;
          _submit_text := _submit_text f;
          _submit_clicks := _submit_clicks f |},
       to_int (Z.of_nat (k + length l))).
Proof.
  induction l as [|[[title description] ready] l IH]; intros f k.
  - cbn. rewrite !app_nil_r, Nat.add_0_r. now destruct f.
  - cbn [for_each]. rewrite exec_bind, fillRows_callback_step.
    rewrite to_int_succ, IH.
    cbn [inner _rows _submit_text _submit_clicks length].
    rewrite !imap_cons, <- !app_assoc, length_app. cbn [length app].
    rewrite !Nat.add_0_r.
    replace (S k + length l)%nat with (k + S (length l))%nat by lia.
    assert (Hinner :
      imap (fun i (_ : QString * QString * bool) =>
              (RowChild (length (_rows f) + 1 + i), noMargins)) l
      = imap (compose
                (fun i (_ : QString * QString * bool) =>
                   (RowChild (length (_rows f) + i), noMargins)) S) l).
    { apply imap_ext. intros i x _. unfold compose.
      now replace (length (_rows f) + 1 + i)%nat
        with (length (_rows f) + S i)%nat by lia. }
    assert (Hrows :
      imap (fun i x => spec_row st countHeight initialSize (S k + i) x) l
      = imap (compose
                (fun i x => spec_row st countHeight initialSize (k + i) x) S)
          l).
    { apply imap_ext. intros i x _. unfold compose.
      now replace (S k + i)%nat with (k + S i)%nat by lia. }
    rewrite Hinner, Hrows. reflexivity.
Qed.

Lemma exec_with_local {A : Type} (init : Z) (m : M (PanelForm * Z) A)
    (f : PanelForm) :
  exec (with_local init m) f = fst (exec m (f, init)).
Proof. unfold exec, with_local. now destruct (m (f, init)). Qed.

Lemma exec_inner_back (method : Widget -> Widget) (f : PanelForm)
    (l : list (Widget * Margins)) (w : Widget) (m : Margins) :
  inner f = l ++ [(w, m)] ->
  exec (inner_back method) f = set_inner (l ++ [(method w, m)]) f.
Proof.
  intros Hf. unfold inner_back, exec, modify. cbn [snd].
  now rewrite Hf, alter_back.
Qed.

(** The form the constructor builds. *)
Lemma PanelForm_new_eq (c : PanelController) :
  PanelForm_new st countHeight initialSize lang c
  = {| inner :=
         spec_fixed_children lang (bot c)
         ++ imap (fun i _ => (RowChild i, noMargins)) (scopes c)
         ++ [(Label (spec_policy_label lang c), passportFormPolicyPadding)];
       _rows := imap (spec_row st countHeight initialSize) (scopes c);
       _submit_text := lng_passport_authorize lang;
       _submit_clicks := [LambdaSubmitForm] |}.
Proof.
  unfold PanelForm_new, setupControls, setupContent. cbv zeta.
  rewrite !exec_bind, exec_with_local. unfold fillRows.
  rewrite <- to_int_0, fillRows_state.
  unfold spec_policy_label.
  destruct (privacyPolicyUrl c) as [|a u]; cbn [isEmpty negb];
    [reflexivity|].
  erewrite exec_inner_back; cycle 1.
  - cbn. rewrite !app_comm_cons. reflexivity.
  - reflexivity.
Qed.

(** No event touches the click handlers, the children of the layout or
    the number of rows. *)
Lemma handle_preserves (e : Event) (s : PanelForm * PanelController) :
  let s' := handle st countHeight e s in
  clicks <$> _rows (fst s') = clicks <$> _rows (fst s)
  /\ _submit_clicks (fst s') = _submit_clicks (fst s)
  /\ inner (fst s') = inner (fst s).
Proof.
  destruct s as [f c]. destruct e as [k| |k ready|w]; cbn.
  - now destruct (_rows f !! k).
  - easy.
  - split; [|easy]. now apply alter_preserves.
  - split; [|easy]. rewrite <- list_fmap_compose. now apply list_fmap_ext.
Qed.

Lemma handle_all_preserves (es : list Event) :
  forall s : PanelForm * PanelController,
    let s' := handle_all st countHeight es s in
    clicks <$> _rows (fst s') = clicks <$> _rows (fst s)
    /\ _submit_clicks (fst s') = _submit_clicks (fst s)
    /\ inner (fst s') = inner (fst s).
Proof.
  induction es as [|e es IH]; intros s; [easy|].
  cbn. destruct (IH (handle st countHeight e s)) as (H1 & H2 & H3).
  destruct (handle_preserves e s) as (K1 & K2 & K3).
  unfold handle_all in H1, H2, H3.
  rewrite H1, H2, H3. easy.
Qed.

Lemma spec_row_fields (i : nat) (x : QString * QString * bool) :
  let r := spec_row st countHeight initialSize i x in
  clicks r = [LambdaEditScope (to_int (Z.of_nat i))]
  /\ text_string (_title r) = fst (fst x)
  /\ text_string (_description r) = snd (fst x)
  /\ text_st (_title r) = semiboldTextStyle
  /\ text_st (_description r) = defaultTextStyle
  /\ _ready r = snd x.
Proof. repeat split; reflexivity. Qed.

Lemma row_children_fixed (bot : UserData) (l : list (Widget * Margins)) :
  row_children (spec_fixed_children lang bot ++ l) = row_children l.
Proof. reflexivity. Qed.

Lemma row_children_rows {A : Type} (l : list A) (k : nat)
    (tl : list (Widget * Margins)) :
  row_children (imap (fun i _ => (RowChild (k + i), noMargins)) l ++ tl)
  = seq k (length l) ++ row_children tl.
Proof.
  revert k. induction l as [|x l IH]; intros k; [reflexivity|].
  rewrite imap_cons. cbn. rewrite Nat.add_0_r. f_equal.
  rewrite <- (IH (S k)). f_equal. f_equal. apply imap_ext.
  intros i y _. unfold compose.
  now replace (k + S i)%nat with (S k + i)%nat by lia.
Qed.

(** C3. For every sequence of tuples the controller hands to the callback
    of [fillRows], the constructed form has one row per tuple, in call
    order and in that order in the layout; the row of a tuple carries the
    tuple's title and description, its ready flag is the tuple's, and its
    layout was run after the flag was set. *)
Theorem one_row_per_tuple (c : PanelController) :
  let f := PanelForm_new st countHeight initialSize lang c in
  length (_rows f) = length (scopes c)
  /\ _rows f = imap (spec_row st countHeight initialSize) (scopes c)
  /\ row_children (inner f) = seq 0 (length (scopes c))
  /\ (forall (i : nat) (title description : QString) (ready : bool),
        scopes c !! i = Some (title, description, ready) ->
        exists r : Row,
          _rows f !! i = Some r
          /\ text_string (_title r) = title
          /\ text_string (_description r) = description
          /\ _ready r = ready
          /\ layout_current st countHeight r).
Proof.
  intros f. unfold f. rewrite PanelForm_new_eq.
  cbn [_rows inner]. split; [apply length_imap|]. split; [reflexivity|].
  split.
  - rewrite row_children_fixed.
    rewrite (row_children_rows (scopes c) 0). cbn. apply app_nil_r.
  - intros i title description ready Hi.
    exists (spec_row st countHeight initialSize i (title, description, ready)).
    split; [now rewrite list_lookup_imap, Hi|].
    repeat split; reflexivity.
Qed.

(** C2. In the constructed form, and after any later events (clicks,
    [setReady] on any row, changes of width), the [i]-th row, created at
    the [i]-th invocation of the callback counting from zero, carries the
    one handler that calls [editScope(i)]: clicking it makes the controller
    receive exactly [editScope(i)]. The index is the value [index] had when
    the row was created. *)
Theorem row_click_invokes_editScope (c : PanelController)
    (later : list Event) (i : nat) :
  (i < length (scopes c))%nat ->
  Z.of_nat i <= int_max ->
  let s := handle_all st countHeight later
             (PanelForm_new st countHeight initialSize lang c, c) in
  (exists r : Row,
     _rows (fst s) !! i = Some r
     /\ clicks r = [LambdaEditScope (Z.of_nat i)])
  /\ calls (snd (handle st countHeight (RowClicked i) s))
     = calls (snd s) ++ [CallEditScope (Z.of_nat i)].
Proof.
  intros Hi Hmax s.
  destruct (handle_all_preserves later
              (PanelForm_new st countHeight initialSize lang c, c))
    as (Hclicks & _). fold s in Hclicks. cbn [fst] in Hclicks.
  rewrite PanelForm_new_eq in Hclicks. cbn [_rows] in Hclicks.
  destruct (lookup_lt_is_Some_2 (scopes c) i Hi) as [x Hx].
  assert (Hlook : (clicks <$> _rows (fst s)) !! i
                  = Some [LambdaEditScope (Z.of_nat i)]).
  { rewrite Hclicks, list_lookup_fmap, list_lookup_imap, Hx.
    change (Some (clicks (spec_row st countHeight initialSize i x))
            = Some [LambdaEditScope (Z.of_nat i)]).
    destruct (spec_row_fields i x) as (-> & _).
    rewrite to_int_fits; [reflexivity|]. unfold fits_int, int_min. lia. }
  rewrite list_lookup_fmap in Hlook.
  destruct (_rows (fst s) !! i) as [r|] eqn:Hr; [|discriminate].
  cbn in Hlook. injection Hlook as Hc.
  split; [now exists r|].
  destruct s as [f' c']. cbn [handle fst snd] in *. rewrite Hr, Hc.
  reflexivity.
Qed.

(** C7. The last child of the layout is the policy label. With an empty
    [privacyPolicyUrl()] its text is the "allow" message and it has no
    link; with a non-empty one its text is the "accept and allow" message
    around the policy link, and link 1 is a handler for exactly that url.
    The label has a link if and only if the url is not empty. *)
Theorem policy_label_by_url (c : PanelController) :
  let f := PanelForm_new st countHeight initialSize lang c in
  exists policy : FlatLabel,
    last (inner f) = Some (Label policy, passportFormPolicyPadding)
    /\ label_initType policy = Rich
    /\ (privacyPolicyUrl c = EmptyString ->
        label_text policy
        = lng_passport_allow lang (at_sign (username (bot c)))
        /\ label_links policy = [])
    /\ (privacyPolicyUrl c <> EmptyString ->
        label_text policy
        = lng_passport_accept_allow lang
            (textcmdLink lang 1
               (lng_passport_policy lang (peerName (bot c))))
            (at_sign (username (bot c)))
        /\ label_links policy
           = [(1, UrlClickHandler (privacyPolicyUrl c))])
    /\ (label_links policy = [] <-> privacyPolicyUrl c = EmptyString).
Proof.
  intros f. exists (spec_policy_label lang c). unfold f.
  rewrite PanelForm_new_eq. cbn [inner]. split.
  - now rewrite !app_assoc, last_snoc.
  - unfold spec_policy_label.
    destruct (privacyPolicyUrl c) as [|a u]; cbn; repeat split; easy.
Qed.

(** C8. When the controller invokes the callback of [fillRows] zero times,
    the form has no row, the layout holds the fixed children and the policy
    label only, and activating the submit control still makes the
    controller receive [submitForm()]. *)
Theorem zero_categories (c : PanelController) (later : list Event) :
  scopes c = [] ->
  let f := PanelForm_new st countHeight initialSize lang c in
  _rows f = []
  /\ inner f
     = spec_fixed_children lang (bot c)
       ++ [(Label (spec_policy_label lang c), passportFormPolicyPadding)]
  /\ row_children (inner f) = []
  /\ (let s := handle_all st countHeight later (f, c) in
      _rows (fst s) = []
      /\ calls (snd (handle st countHeight SubmitClicked s))
         = calls (snd s) ++ [CallSubmitForm]).
Proof.
  intros Hzero f.
  assert (Hf : f = {| inner :=
                        spec_fixed_children lang (bot c)
                        ++ [(Label (spec_policy_label lang c),
                             passportFormPolicyPadding)];
                      _rows := [];
                      _submit_text := lng_passport_authorize lang;
                      _submit_clicks := [LambdaSubmitForm] |}).
  { unfold f. rewrite PanelForm_new_eq, Hzero. reflexivity. }
  split; [now rewrite Hf|]. split; [now rewrite Hf|].
  split; [now rewrite Hf|].
  set (s := handle_all st countHeight later (f, c)). cbv zeta.
  destruct (handle_all_preserves later (f, c)) as (Hclicks & Hsubmit & _).
  fold s in Hclicks, Hsubmit. cbn [fst] in Hclicks, Hsubmit.
  rewrite Hf in Hclicks, Hsubmit. cbn in Hclicks, Hsubmit.
  split.
  - now apply fmap_nil_inv in Hclicks.
  - destruct s as [f' c']. cbn [handle fst snd] in *. rewrite Hsubmit.
    reflexivity.
Qed.

End FormProperties.

(** * The properties at the concrete instance *)

(** The scenario of the specification: "Personal details" / "Name, date of
    birth", not ready, at width 300. The height is paddings, gap and the
    two text heights; the icon painted is the empty one, right-aligned and
    vertically centred. *)
Example scenario_personal_details :
  let r := exec (resizeToWidth sampleStyle sampleCountHeight 300) sampleRow in
  eval (resizeGetHeight sampleStyle sampleCountHeight 300) sampleRow
  = 8 + 20 + 2 + 18 + 8
  /\ height r = 56
  /\ nth_error (paintEvent sampleStyle 0 r) 5
     = Some (IconPaint (passportRowEmptyIcon sampleStyle)
               (300 - 22 - 18) ((56 - 18) / 2) 300).
Proof. vm_compute. repeat split; reflexivity. Qed.

(** [setReady] with the flag the row already has still runs the layout: a
    new row has no heights cached, and has them after [setReady false]. *)
Example scenario_setReady_same_flag :
  let r := exec (setReady sampleStyle sampleCountHeight false) sampleRow in
  _ready sampleRow = false
  /\ (_titleHeight sampleRow, _descriptionHeight sampleRow) = (0, 0)
  /\ (_titleHeight r, _descriptionHeight r) = (80, 90)
  /\ updates r = S (updates sampleRow).
Proof. vm_compute. repeat split; reflexivity. Qed.

(** At width 208 the description needs a second line once the wider ready
    icon is shown. *)
Example scenario_ready_wraps :
  let r := exec (resizeToWidth sampleStyle sampleCountHeight 208) sampleRow in
  height r = 56
  /\ height (exec (setReady sampleStyle sampleCountHeight true) r) = 74.
Proof. vm_compute. split; reflexivity. Qed.

Lemma sampleCountHeight_nonneg (t : Text) (w : Z) :
  0 <= sampleCountHeight t w.
Proof. unfold sampleCountHeight. destruct (text_st t); lia. Qed.

Lemma resizeGetHeight_spec_witness :
  countAvailableWidth sampleStyle 300 sampleRow = 228
  /\ eval (resizeGetHeight sampleStyle sampleCountHeight 300) sampleRow = 56.
Proof.
  pose proof (resizeGetHeight_spec sampleStyle sampleCountHeight sampleRow 300)
    as H.
  cbv zeta in H. destruct H as (Ha & _ & Hfa & Hfh). split.
  - rewrite Ha, Hfa; [vm_compute; reflexivity | fits_by_computation].
  - rewrite Hfh; [vm_compute; reflexivity | fits_by_computation].
Defined.

Lemma row_click_invokes_editScope_witness :
  calls (snd (handle sampleStyle sampleCountHeight (RowClicked 1)
                (handle_all sampleStyle sampleCountHeight
                   [WidthChanged 300; RowSetReady 0 true; RowClicked 2]
                   (PanelForm_new sampleStyle sampleCountHeight
                      sampleInitialSize sampleLang
                      (sampleController samplePolicyUrl),
                    sampleController samplePolicyUrl))))
  = [CallEditScope 2; CallEditScope 1].
Proof.
  pose proof (row_click_invokes_editScope sampleStyle sampleCountHeight
                sampleInitialSize sampleLang
                (sampleController samplePolicyUrl)
                [WidthChanged 300; RowSetReady 0 true; RowClicked 2] 1%nat)
    as H.
  cbv zeta in H. destruct H as [_ H].
  - vm_compute. lia.
  - apply Z.leb_le. vm_compute. reflexivity.
  - rewrite H. vm_compute. reflexivity.
Defined.

Lemma one_row_per_tuple_witness :
  exists r : Row,
    _rows (PanelForm_new sampleStyle sampleCountHeight sampleInitialSize
             sampleLang (sampleController samplePolicyUrl)) !! 1%nat
    = Some r
    /\ text_string (_title r) = "Address"%string
    /\ text_string (_description r) = "Residential address"%string
    /\ _ready r = true
    /\ layout_current sampleStyle sampleCountHeight r.
Proof.
  pose proof (one_row_per_tuple sampleStyle sampleCountHeight
                sampleInitialSize sampleLang
                (sampleController samplePolicyUrl)) as H.
  cbv zeta in H. destruct H as (_ & _ & _ & H).
  apply (H 1%nat). reflexivity.
Defined.

Lemma setReady_toggle_restores_witness :
  let r0 := exec (resizeToWidth sampleStyle sampleCountHeight 208) sampleRow in
  height (exec (setReady sampleStyle sampleCountHeight false)
            (exec (setReady sampleStyle sampleCountHeight true) r0))
  = height r0.
Proof.
  intros r0.
  pose proof (setReady_toggle_restores sampleStyle sampleCountHeight r0) as H.
  cbv zeta in H. destruct H as [H _].
  - reflexivity.
  - vm_compute. reflexivity.
  - exact H.
Defined.

Lemma resizeGetHeight_pure_witness :
  eval (resizeGetHeight sampleStyle sampleCountHeight 300) sampleRow
  = eval (resizeGetHeight sampleStyle sampleCountHeight 300)
      (exec (resizeToWidth sampleStyle sampleCountHeight 120) sampleRow).
Proof.
  apply (resizeGetHeight_pure sampleStyle sampleCountHeight sampleRow
           (exec (resizeToWidth sampleStyle sampleCountHeight 120) sampleRow)
           300); reflexivity.
Defined.

Lemma policy_label_by_url_witness :
  (exists policy : FlatLabel,
     last (inner (PanelForm_new sampleStyle sampleCountHeight
                    sampleInitialSize sampleLang
                    (sampleController samplePolicyUrl)))
     = Some (Label policy, passportFormPolicyPadding)
     /\ label_links policy = [(1, UrlClickHandler samplePolicyUrl)])
  /\ (exists policy : FlatLabel,
        last (inner (PanelForm_new sampleStyle sampleCountHeight
                       sampleInitialSize sampleLang emptyController))
        = Some (Label policy, passportFormPolicyPadding)
        /\ label_links policy = []).
Proof.
  split.
  - destruct (policy_label_by_url sampleStyle sampleCountHeight
                sampleInitialSize sampleLang
                (sampleController samplePolicyUrl))
      as (policy & Hlast & _ & _ & Hurl & _).
    exists policy. split; [exact Hlast|]. apply Hurl. discriminate.
  - destruct (policy_label_by_url sampleStyle sampleCountHeight
                sampleInitialSize sampleLang emptyController)
      as (policy & Hlast & _ & Hnone & _).
    exists policy. split; [exact Hlast|]. apply Hnone. reflexivity.
Defined.

Lemma zero_categories_witness :
  _rows (PanelForm_new sampleStyle sampleCountHeight sampleInitialSize
           sampleLang emptyController) = []
  /\ calls (snd (handle sampleStyle sampleCountHeight SubmitClicked
                   (handle_all sampleStyle sampleCountHeight
                      [RowClicked 0; WidthChanged 200]
                      (PanelForm_new sampleStyle sampleCountHeight
                         sampleInitialSize sampleLang emptyController,
                       emptyController))))
     = [CallSubmitForm].
Proof.
  pose proof (zero_categories sampleStyle sampleCountHeight sampleInitialSize
                sampleLang emptyController
                [RowClicked 0; WidthChanged 200]) as H.
  cbv zeta in H. destruct H as (Hrows & _ & _ & _ & Hsubmit).
  - reflexivity.
  - split; [exact Hrows|]. rewrite Hsubmit. vm_compute. reflexivity.
Defined.

Lemma resizeGetHeight_lower_bound_witness :
  8 + 8 + 2
  <= eval (resizeGetHeight sampleStyle sampleCountHeight 300) sampleRow.
Proof.
  apply (resizeGetHeight_lower_bound sampleStyle sampleCountHeight
           sampleRow 300).
  - exact sampleCountHeight_nonneg.
  - fits_by_computation.
Defined.

(** * Further properties of the row *)


Lemma to_int_add_r (a b : Z) : to_int (a + to_int b) = to_int (a + b).
Proof.
  replace (a + to_int b) with (to_int b + a) by lia.
  rewrite to_int_add_l. f_equal. lia.
Qed.

Lemma quot2_bounds (a : Z) :
  (0 <= a -> 0 <= a - 2 * Z.quot a 2 <= 1)
  /\ (a <= 0 -> -1 <= a - 2 * Z.quot a 2 <= 0).
Proof.
  split; intros Ha.
  - pose proof (Z.quot_rem' a 2). pose proof (Z.rem_bound_pos a 2). lia.
  - replace a with (- - a) by lia. rewrite Z.quot_opp_l by lia.
    pose proof (Z.quot_rem' (- a) 2).
    pose proof (Z.rem_bound_pos (- a) 2). lia.
Qed.

Lemma quot2_fits (a : Z) : fits_int a -> fits_int (Z.quot a 2).
Proof.
  unfold fits_int, int_min, int_max. intros Ha.
  destruct (quot2_bounds a) as [Hpos Hneg].
  destruct (Z_le_gt_dec 0 a); lia.
Qed.

Section RowGeometry.

Variable st : Style.
Variable countHeight : Text -> Z -> Z.

Lemma countAvailableWidth_exact (newWidth : Z) (r : Row) :
  fits_int (spec_availableWidth st (_ready r) newWidth) ->
  countAvailableWidth st newWidth r
  = spec_availableWidth st (_ready r) newWidth.
Proof. intros H. rewrite countAvailableWidth_spec. now apply to_int_fits. Qed.

Lemma resizeGetHeight_exact (newWidth : Z) (r : Row) :
  fits_int (spec_height st
              (countHeight (_title r) (countAvailableWidth st newWidth r))
              (countHeight (_description r)
                 (countAvailableWidth st newWidth r))) ->
  eval (resizeGetHeight st countHeight newWidth) r
  = spec_height st
      (countHeight (_title r) (countAvailableWidth st newWidth r))
      (countHeight (_description r) (countAvailableWidth st newWidth r)).
Proof. intros H. rewrite resizeGetHeight_value. now apply to_int_fits. Qed.



Lemma int_sum_regroup (a b c d e : Z) :
  a +i (b +i c) +i (d +i e) = a +i b +i c +i d +i e.
Proof.
  rewrite int_sum5. unfold int_add.
  rewrite !to_int_add_r, to_int_add_l. f_equal. lia.
Qed.

Lemma apply_op_height (op : RowOp) (r : Row) :
  let r' := apply_op st countHeight op r in
  height r'
  = margin_top (passportRowPadding st) +i _titleHeight r'
    +i passportRowSkip st +i _descriptionHeight r'
    +i margin_bottom (passportRowPadding st).
Proof. destruct op; reflexivity. Qed.

(** X3. After [setReady] or a re-layout, what [paintEvent] draws fills the
    row from top to bottom: the description is drawn at a position from
    which its cached height and the bottom padding lead exactly to the
    row's height. *)
Theorem paint_fills_row_height (op : RowOp) (r : Row) (ms : Z)
    (t : Text) (x y availableWidth outerw : Z) :
  let r' := apply_op st countHeight op r in
  nth_error (paintEvent st ms r') 4
  = Some (DrawLeft t x y availableWidth outerw) ->
  y +i (_descriptionHeight r' +i margin_bottom (passportRowPadding st))
  = height r'
  /\ (fits_int (_titleHeight r' + passportRowSkip st) ->
      fits_int (margin_top (passportRowPadding st)
                + _titleHeight r' + passportRowSkip st) ->
      fits_int (spec_height st (_titleHeight r') (_descriptionHeight r')) ->
      y = margin_top (passportRowPadding st)
          + _titleHeight r' + passportRowSkip st
      /\ y + _descriptionHeight r' + margin_bottom (passportRowPadding st)
         = height r').
Proof.
  intros r' Hop.
  assert (Hy : y = margin_top (passportRowPadding st)
                   +i (_titleHeight r' +i passportRowSkip st)).
  { cbn in Hop. now injection Hop as _ _ <- _ _. }
  pose proof (apply_op_height op r) as Hh. fold r' in Hh.
  split.
  - rewrite Hy, Hh. apply int_sum_regroup.
  - intros H1 H2 H3.
    assert (Hy' : y = margin_top (passportRowPadding st)
                      + _titleHeight r' + passportRowSkip st).
    { rewrite Hy. unfold int_add. rewrite (to_int_fits _ H1).
      rewrite Z.add_assoc. now apply to_int_fits. }
    split; [exact Hy'|].
    rewrite Hh, int_sum5, Hy'. symmetry. now apply to_int_fits.
Qed.

(** X4. With a text shaper for which more width never means more height,
    a wider row is never taller: [resizeGetHeight] is non-increasing in
    [newWidth]. *)
Theorem wider_never_taller (r : Row) (W1 W2 : Z) :
  (forall (t : Text) (w1 w2 : Z),
     w1 <= w2 -> countHeight t w2 <= countHeight t w1) ->
  fits_int (spec_availableWidth st (_ready r) W1) ->
  fits_int (spec_availableWidth st (_ready r) W2) ->
  fits_int (spec_height st
              (countHeight (_title r) (countAvailableWidth st W1 r))
              (countHeight (_description r) (countAvailableWidth st W1 r))) ->
  fits_int (spec_height st
              (countHeight (_title r) (countAvailableWidth st W2 r))
              (countHeight (_description r) (countAvailableWidth st W2 r))) ->
  W1 <= W2 ->
  eval (resizeGetHeight st countHeight W2) r
  <= eval (resizeGetHeight st countHeight W1) r.
Proof.
  intros Hanti Ha1 Ha2 Hh1 Hh2 Hle.
  rewrite !resizeGetHeight_exact by assumption.
  assert (Hw : countAvailableWidth st W1 r <= countAvailableWidth st W2 r).
  { rewrite !countAvailableWidth_exact by assumption.
    unfold spec_availableWidth. lia. }
  pose proof (Hanti (_title r) _ _ Hw).
  pose proof (Hanti (_description r) _ _ Hw).
  unfold spec_height. lia.
Qed.

(** X5. Setting the ready flag takes the difference of the two icon widths
    off the available width; with a ready icon at least as wide as the
    empty one (and a shaper for which more width never means more height)
    a ready row is never lower than the same row not ready. *)
Theorem ready_never_lower (r : Row) :
  (forall (t : Text) (w1 w2 : Z),
     w1 <= w2 -> countHeight t w2 <= countHeight t w1) ->
  icon_width (passportRowEmptyIcon st)
  <= icon_width (passportRowReadyIcon st) ->
  fits_int (spec_availableWidth st true (width r)) ->
  fits_int (spec_availableWidth st false (width r)) ->
  fits_int (spec_height st
              (countHeight (_title r) (spec_availableWidth st true (width r)))
              (countHeight (_description r)
                 (spec_availableWidth st true (width r)))) ->
  fits_int (spec_height st
              (countHeight (_title r) (spec_availableWidth st false (width r)))
              (countHeight (_description r)
                 (spec_availableWidth st false (width r)))) ->
  countAvailableWidth0 st (exec (setReady st countHeight true) r)
  = countAvailableWidth0 st (exec (setReady st countHeight false) r)
    - (icon_width (passportRowReadyIcon st)
       - icon_width (passportRowEmptyIcon st))
  /\ height (exec (setReady st countHeight false) r)
     <= height (exec (setReady st countHeight true) r).
Proof.
  intros Hanti Hicons Hat Haf Hht Hhf. split.
  - unfold countAvailableWidth0.
    rewrite !countAvailableWidth_exact by assumption.
    change (spec_availableWidth st true (width r)
            = spec_availableWidth st false (width r)
              - (icon_width (passportRowReadyIcon st)
                 - icon_width (passportRowEmptyIcon st))).
    unfold spec_availableWidth. lia.
  - destruct (setReady_layout st countHeight true r) as (_ & _ & ->).
    destruct (setReady_layout st countHeight false r) as (_ & _ & ->).
    rewrite (to_int_fits _ Hat), (to_int_fits _ Haf).
    rewrite (to_int_fits _ Hht), (to_int_fits _ Hhf).
    assert (Hw : spec_availableWidth st true (width r)
                 <= spec_availableWidth st false (width r))
      by (unfold spec_availableWidth; lia).
    pose proof (Hanti (_title r) _ _ Hw).
    pose proof (Hanti (_description r) _ _ Hw).
    unfold spec_height. lia.
Qed.

(** X6. There is no floor on the width: for a [newWidth] below the sum of
    the two paddings, the icon width and the gap the available width is
    negative, [resizeGetHeight] asks the shaper for the heights at that
    negative width all the same, and returns the paddings and gap around
    whatever it answers. *)
Theorem no_width_floor (r : Row) (newWidth : Z) :
  fits_int (spec_availableWidth st (_ready r) newWidth) ->
  let iconWidth := if _ready r
                   then icon_width (passportRowReadyIcon st)
                   else icon_width (passportRowEmptyIcon st) in
  let availableWidth := countAvailableWidth st newWidth r in
  let r' := exec (resizeGetHeight st countHeight newWidth) r in
  (availableWidth < 0 <->
   newWidth < margin_left (passportRowPadding st)
              + margin_right (passportRowPadding st)
              + iconWidth + passportRowIconSkip st)
  /\ _titleHeight r' = countHeight (_title r) availableWidth
  /\ _descriptionHeight r' = countHeight (_description r) availableWidth
  /\ eval (resizeGetHeight st countHeight newWidth) r
     = margin_top (passportRowPadding st) +i _titleHeight r'
       +i passportRowSkip st +i _descriptionHeight r'
       +i margin_bottom (passportRowPadding st).
Proof.
  intros Hfit iconWidth availableWidth r'.
  split; [|repeat split; reflexivity].
  unfold availableWidth. rewrite countAvailableWidth_exact by exact Hfit.
  unfold spec_availableWidth, iconWidth. lia.
Qed.

(** X7. With two icons of the same width, [setReady] on a row that is laid
    out changes the flag and asks for a repaint, and nothing else: sizes
    and cached heights stay. *)
Theorem setReady_same_icon_width (r : Row) (ready : bool) :
  icon_width (passportRowReadyIcon st)
  = icon_width (passportRowEmptyIcon st) ->
  laid_out st countHeight r ->
  exec (setReady st countHeight ready) r
  = set_updates (S (updates r)) (set_ready ready r).
Proof.
  intros Hicons [[Hth Hdh] Hh].
  assert (Ha : forall w, countAvailableWidth st w (set_ready ready r)
                         = countAvailableWidth st w r).
  { intros w. unfold countAvailableWidth. cbn [_ready set_ready].
    destruct ready, (_ready r); now rewrite ?Hicons. }
  rewrite setReady_unfold, resizeToWidth_unfold. f_equal.
  rewrite resizeGetHeight_state. unfold eval.
  rewrite resizeGetHeight_unfold. cbv zeta. cbn [fst].
  rewrite Ha. cbn [_title _description set_ready].
  unfold countAvailableWidth0 in Hth, Hdh. rewrite <- Hth, <- Hdh.
  unfold eval in Hh. rewrite resizeGetHeight_unfold in Hh.
  cbv zeta in Hh. cbn [fst] in Hh. rewrite <- Hth, <- Hdh in Hh.
  cbn [width set_ready]. rewrite <- Hh. now destruct r.
Qed.




End RowGeometry.

(** * Properties of the geometry of the controls *)

Section ControlsProperties.

Variable lineWidth : Z.
Variable shadowHeightAt : Z -> Geometry -> Z.
Variable submitHeightAt : Z -> Geometry -> Z.

(** X9. [updateControlsGeometry] stacks the scroll area and the submit
    button: the scroll area starts at the top, ends where the submit
    button begins, and all four controls get the width of the form. The
    top of the submit button is taken from the height the button had
    before it is re-laid-out, so the button ends at the bottom of the form
    exactly when that re-layout keeps its height, and is off by the change
    otherwise. The bottom shadow lies one line width above the button.
    Stated for a form at least as high as its button, where no size is
    negative. *)
Theorem updateControlsGeometry_stacks (p : PanelControls) :
  0 <= panel_width p ->
  geo_height (_submit p) <= panel_height p ->
  fits_int (panel_height p - geo_height (_submit p)) ->
  fits_int (panel_height p - geo_height (_submit p) - lineWidth) ->
  let p' :=
    exec (updateControlsGeometry lineWidth shadowHeightAt submitHeightAt) p in
  (geo_x (_scroll p'), geo_y (_scroll p')) = (0, 0)
  /\ geo_y (_scroll p') + geo_height (_scroll p') = geo_y (_submit p')
  /\ geo_width (_scroll p') = panel_width p
  /\ geo_width (_topShadow p') = panel_width p
  /\ geo_width (_bottomShadow p') = panel_width p
  /\ geo_width (_submit p') = panel_width p
  /\ (geo_x (_topShadow p'), geo_y (_topShadow p')) = (0, 0)
  /\ geo_y (_bottomShadow p') + lineWidth = geo_y (_submit p')
  /\ geo_y (_submit p') + geo_height (_submit p')
     = panel_height p + (geo_height (_submit p') - geo_height (_submit p))
  /\ (geo_y (_submit p') + geo_height (_submit p') = panel_height p <->
      submitHeightAt (panel_width p) (_submit p) = geo_height (_submit p))
  /\ (panel_width p', panel_height p') = (panel_width p, panel_height p)
  /\ scroll_bars_updates p' = S (scroll_bars_updates p).
Proof.
  intros _ _ Htop Hshadow p'.
  assert (Hsy : geo_y (_submit p')
                = panel_height p - geo_height (_submit p)).
  { change (geo_y (_submit p'))
      with (panel_height p -i geo_height (_submit p)).
    unfold int_sub. now apply to_int_fits. }
  assert (Hsh : geo_height (_scroll p')
                = panel_height p - geo_height (_submit p)).
  { change (geo_height (_scroll p'))
      with (panel_height p -i geo_height (_submit p)).
    unfold int_sub. now apply to_int_fits. }
  assert (Hby : geo_y (_bottomShadow p')
                = panel_height p - geo_height (_submit p) - lineWidth).
  { change (geo_y (_bottomShadow p'))
      with (panel_height p -i geo_height (_submit p) -i lineWidth).
    unfold int_sub. rewrite (to_int_fits _ Htop). now apply to_int_fits. }
  assert (Hh : geo_height (_submit p')
               = submitHeightAt (panel_width p) (_submit p))
    by reflexivity.
  split; [reflexivity|]. split; [rewrite Hsh, Hsy; reflexivity|].
  do 4 (split; [reflexivity|]). split; [reflexivity|].
  split; [lia|]. split; [lia|]. split; [rewrite Hsy, Hh; lia|].
  split; reflexivity.
Qed.

End ControlsProperties.

(** X10. For a scroll position inside its range, no shadow is shown
    exactly when the content fits the scroll area: content higher than
    the area always has the top or the bottom shadow on. The top shadow is
    off at the top, the bottom shadow is off at the bottom. *)
Theorem shadows_off_iff_content_fits (scrollTop scrollHeight innerHeight : Z) :
  0 <= scrollTop <= Z.max 0 (innerHeight - scrollHeight) ->
  fits_int (scrollTop + scrollHeight) ->
  (topShadowToggled scrollTop = false
   /\ bottomShadowToggled scrollTop scrollHeight innerHeight = false
   <-> innerHeight <= scrollHeight)
  /\ (scrollTop = 0 -> topShadowToggled scrollTop = false)
  /\ (scrollTop = Z.max 0 (innerHeight - scrollHeight) ->
      bottomShadowToggled scrollTop scrollHeight innerHeight = false).
Proof.
  intros Hrange Hfit.
  unfold topShadowToggled, bottomShadowToggled, int_add.
  rewrite (to_int_fits _ Hfit).
  repeat split.
  - intros [Htop Hbottom].
    apply Z.ltb_ge in Htop. apply Z.ltb_ge in Hbottom. lia.
  - apply Z.ltb_ge. lia.
  - apply Z.ltb_ge. lia.
  - intros ->. reflexivity.
  - intros Hend. apply Z.ltb_ge. lia.
Qed.

(** X11. When the userpic wrap gets a width, the userpic is centred in
    it: the space to its left and to its right differ by at most one
    pixel, the odd pixel going right in a wrap at least as wide as the
    userpic and left in a narrower one. Its vertical position and its
    size stay. *)
Theorem userpic_centred (width : Z) (g : Geometry) :
  fits_int (width - geo_width g) ->
  let g' := exec (userpic_on_width width) g in
  let spaceLeft := geo_x g' in
  let spaceRight := width - (geo_x g' + geo_width g') in
  geo_y g' = geo_y g
  /\ geo_width g' = geo_width g
  /\ geo_height g' = geo_height g
  /\ (geo_width g <= width -> 0 <= spaceRight - spaceLeft <= 1)
  /\ (width <= geo_width g -> -1 <= spaceRight - spaceLeft <= 0).
Proof.
  intros Hfit g' spaceLeft spaceRight.
  assert (Hx : geo_x g' = Z.quot (width - geo_width g) 2).
  { change (geo_x g') with ((width -i geo_width g) /i 2).
    unfold int_div, int_sub. rewrite (to_int_fits _ Hfit).
    apply to_int_fits, quot2_fits, Hfit. }
  destruct (quot2_bounds (width - geo_width g)) as [Hpos Hneg].
  do 3 (split; [reflexivity|]).
  unfold spaceRight, spaceLeft. rewrite Hx.
  change (geo_width g') with (geo_width g).
  split; intros Hle; lia.
Qed.

(** * Further properties of the form *)

Section FormTraces.

Variable st : Style.
Variable countHeight : Text -> Z -> Z.
Variable initialSize : Z * Z.
Variable lang : Lang.

Lemma handle_calls (l : list (QString * QString * bool)) (e : Event)
    (f : PanelForm) (c : PanelController) :
  Z.of_nat (length l) <= int_max + 1 ->
  clicks <$> _rows f
  = imap (fun i _ => [LambdaEditScope (to_int (Z.of_nat i))]) l ->
  _submit_clicks f = [LambdaSubmitForm] ->
  calls (snd (handle st countHeight e (f, c)))
  = calls c ++ calls_of_event (length l) e.
Proof.
  intros Hlen Hclicks Hsubmit.
  destruct e as [k| |k ready|w]; cbn [handle snd calls_of_event];
    try (now rewrite app_nil_r).
  - assert (Hk : (clicks <$> _rows f) !! k = clicks <$> (_rows f !! k))
      by apply list_lookup_fmap.
    rewrite Hclicks, list_lookup_imap in Hk.
    destruct (Nat.ltb_spec k (length l)) as [Hlt|Hge].
    + destruct (lookup_lt_is_Some_2 l k Hlt) as [x Hx].
      rewrite Hx in Hk. destruct (_rows f !! k) as [r|]; [|discriminate].
      cbn in Hk. injection Hk as Hr. rewrite <- Hr.
      rewrite to_int_fits; [reflexivity|].
      unfold fits_int, int_min. lia.
    + rewrite (proj2 (lookup_ge_None l k) Hge) in Hk.
      destruct (_rows f !! k) as [r|]; [discriminate|].
      now rewrite app_nil_r.
  - now rewrite Hsubmit.
Qed.

Lemma handle_all_calls (l : list (QString * QString * bool))
    (es : list Event) :
  forall (f : PanelForm) (c : PanelController),
    Z.of_nat (length l) <= int_max + 1 ->
    clicks <$> _rows f
    = imap (fun i _ => [LambdaEditScope (to_int (Z.of_nat i))]) l ->
    _submit_clicks f = [LambdaSubmitForm] ->
    calls (snd (handle_all st countHeight es (f, c)))
    = calls c ++ concat (map (calls_of_event (length l)) es).
Proof.
  induction es as [|e es IH]; intros f c Hlen Hclicks Hsubmit.
  - cbn. now rewrite app_nil_r.
  - cbn [handle_all fold_left map concat].
    pose proof (handle_calls l e f c Hlen Hclicks Hsubmit) as Hstep.
    destruct (handle_preserves st countHeight e (f, c)) as (Hc & Hs & _).
    destruct (handle st countHeight e (f, c)) as [f1 c1].
    cbn [fst snd] in Hstep, Hc, Hs.
    change (fold_left (fun s e0 => handle st countHeight e0 s) es (f1, c1))
      with (handle_all st countHeight es (f1, c1)).
    rewrite IH; [|exact Hlen|congruence|congruence].
    rewrite Hstep, app_assoc. reflexivity.
Qed.

(** X12. What the controller receives is the clicks, one call per click
    and in the order of the clicks: [editScope(k)] for a click on row [k],
    [submitForm()] for a click on the submit button, and nothing for any
    other event. *)
Theorem controller_receives_the_clicks (c : PanelController)
    (es : list Event) :
  Z.of_nat (length (scopes c)) <= int_max + 1 ->
  calls (snd (handle_all st countHeight es
                (PanelForm_new st countHeight initialSize lang c, c)))
  = calls c ++ concat (map (calls_of_event (length (scopes c))) es).
Proof.
  intros Hlen. apply handle_all_calls; [exact Hlen| |].
  - rewrite PanelForm_new_eq. cbn [_rows]. rewrite fmap_imap.
    apply imap_ext. reflexivity.
  - now rewrite PanelForm_new_eq.
Qed.

Lemma laid_out_setReady (ready : bool) (r : Row) :
  laid_out st countHeight (exec (setReady st countHeight ready) r).
Proof. split; [split|]; reflexivity. Qed.

Lemma laid_out_resizeToWidth (w : Z) (r : Row) :
  laid_out st countHeight (exec (resizeToWidth st countHeight w) r).
Proof. split; [split|]; reflexivity. Qed.

Lemma handle_rows_invariant (e : Event) (s : PanelForm * PanelController) :
  Forall (laid_out st countHeight) (_rows (fst s)) ->
  Forall (laid_out st countHeight) (_rows (fst (handle st countHeight e s)))
  /\ row_texts <$> _rows (fst (handle st countHeight e s))
     = row_texts <$> _rows (fst s).
Proof.
  intros Hall. destruct s as [f c].
  destruct e as [k| |k ready|w]; cbn [handle fst].
  - now destruct (_rows f !! k).
  - easy.
  - cbn. split.
    + apply Forall_alter; [exact Hall|]. intros r _ _.
      apply laid_out_setReady.
    + now apply alter_preserves.
  - cbn. split.
    + apply Forall_fmap, Forall_true. intros r.
      apply laid_out_resizeToWidth.
    + rewrite <- list_fmap_compose. now apply list_fmap_ext.
Qed.

(** X13. Every row of the form is laid out at all times: in the
    constructed form and after any events, the cached heights and the
    height of each row are those of its ready flag and width; and the rows
    keep the titles and descriptions the controller supplied, in order. *)
Theorem rows_always_laid_out (c : PanelController) (es : list Event) :
  let s := handle_all st countHeight es
             (PanelForm_new st countHeight initialSize lang c, c) in
  Forall (laid_out st countHeight) (_rows (fst s))
  /\ row_texts <$> _rows (fst s) = fst <$> scopes c.
Proof.
  assert (Hgen : forall (es : list Event) (s : PanelForm * PanelController),
             Forall (laid_out st countHeight) (_rows (fst s)) ->
             Forall (laid_out st countHeight)
               (_rows (fst (handle_all st countHeight es s)))
             /\ row_texts <$> _rows (fst (handle_all st countHeight es s))
                = row_texts <$> _rows (fst s)).
  { clear es. induction es as [|e es IH]; intros s Hall; [easy|].
    cbn [handle_all fold_left].
    destruct (handle_rows_invariant e s Hall) as [H1 H2].
    destruct (IH _ H1) as [K1 K2]. split; [exact K1|].
    unfold handle_all in K2. now rewrite K2. }
  intros s.
  assert (Hnew : Forall (laid_out st countHeight)
                   (_rows (PanelForm_new st countHeight initialSize lang c))).
  { rewrite PanelForm_new_eq. cbn [_rows]. apply Forall_lookup.
    intros i r Hi. rewrite list_lookup_imap in Hi.
    destruct (scopes c !! i) as [x|]; [|discriminate].
    change (Some (spec_row st countHeight initialSize i x) = Some r) in Hi.
    injection Hi as <-. unfold spec_row. apply laid_out_setReady. }
  destruct (Hgen es (PanelForm_new st countHeight initialSize lang c, c)
              Hnew) as [H1 H2].
  split; [exact H1|].
  unfold s. rewrite H2. cbn [fst]. rewrite PanelForm_new_eq. cbn [_rows].
  rewrite fmap_imap. rewrite <- (imap_const fst).
  apply imap_ext. now intros i [[t d] b] _.
Qed.

Lemma handle_flag (i : nat) (e : Event) (s : PanelForm * PanelController)
    (r : Row) :
  _rows (fst s) !! i = Some r ->
  exists r' : Row,
    _rows (fst (handle st countHeight e s)) !! i = Some r'
    /\ _ready r' = flag_after i [e] (_ready r).
Proof.
  intros Hr. destruct s as [f c]. cbn [fst] in Hr.
  destruct e as [k| |k ready|w]; cbn [handle fst flag_after fold_left].
  - exists r. now destruct (_rows f !! k).
  - now exists r.
  - cbn. rewrite list_lookup_alter.
    destruct (Nat.eqb_spec k i) as [->|Hne].
    + rewrite decide_True by reflexivity. rewrite Hr. cbn.
      eexists. split; reflexivity.
    + rewrite decide_False by exact Hne. now exists r.
  - cbn. rewrite list_lookup_fmap, Hr. cbn. eexists. split; reflexivity.
Qed.

(** X14. The ready flag of a row is the one the controller supplied for
    it until [setReady] is called on that row, and then the one of the
    last such call: clicks, width changes and [setReady] on other rows
    leave it alone. *)
Theorem row_flag_is_last_set (c : PanelController) (es : list Event)
    (i : nat) (title description : QString) (ready : bool) :
  scopes c !! i = Some (title, description, ready) ->
  exists r : Row,
    _rows (fst (handle_all st countHeight es
                  (PanelForm_new st countHeight initialSize lang c, c))) !! i
    = Some r
    /\ _ready r = flag_after i es ready.
Proof.
  intros Hi.
  assert (Hgen : forall (es : list Event) (s : PanelForm * PanelController)
                        (r : Row),
             _rows (fst s) !! i = Some r ->
             exists r' : Row,
               _rows (fst (handle_all st countHeight es s)) !! i = Some r'
               /\ _ready r' = flag_after i es (_ready r)).
  { clear es. induction es as [|e es IH]; intros s r Hr.
    - now exists r.
    - cbn [handle_all fold_left].
      destruct (handle_flag i e s r Hr) as (r1 & Hr1 & Hf1).
      destruct (IH _ r1 Hr1) as (r2 & Hr2 & Hf2).
      exists r2. split; [exact Hr2|].
      rewrite Hf2, Hf1. reflexivity. }
  apply (Hgen es _
           (spec_row st countHeight initialSize i (title, description, ready))).
  rewrite PanelForm_new_eq. cbn [fst _rows].
  now rewrite list_lookup_imap, Hi.
Qed.

(** X15. The children of the layout are settled by the constructor: in
    the constructed form and after any events they are the five fixed
    children, then one child per row in the order of the rows, then the
    policy label; row [k] is the child at position [5 + k], and there are
    as many rows as the controller supplied tuples. *)
Theorem layout_children_settled (c : PanelController) (es : list Event) :
  let s := handle_all st countHeight es
             (PanelForm_new st countHeight initialSize lang c, c) in
  inner (fst s)
  = spec_fixed_children lang (bot c)
    ++ imap (fun i _ => (RowChild i, noMargins)) (scopes c)
    ++ [(Label (spec_policy_label lang c), passportFormPolicyPadding)]
  /\ length (_rows (fst s)) = length (scopes c)
  /\ length (inner (fst s)) = (length (scopes c) + 6)%nat
  /\ (forall k : nat,
        (k < length (scopes c))%nat ->
        inner (fst s) !! (5 + k)%nat = Some (RowChild k, noMargins)).
Proof.
  intros s.
  destruct (handle_all_preserves st countHeight es
              (PanelForm_new st countHeight initialSize lang c, c))
    as (Hclicks & _ & Hinner).
  fold s in Hclicks, Hinner. cbn [fst] in Hclicks, Hinner.
  rewrite PanelForm_new_eq in Hclicks, Hinner. cbn [_rows inner] in *.
  split; [exact Hinner|]. split; [|split].
  - apply (f_equal length) in Hclicks.
    now rewrite !length_fmap, length_imap in Hclicks.
  - rewrite Hinner, !length_app, length_imap. cbn. lia.
  - intros k Hk. rewrite Hinner.
    destruct (lookup_lt_is_Some_2 (scopes c) k Hk) as [x Hx].
    rewrite lookup_app_r by (cbn; lia).
    replace (5 + k - length (spec_fixed_children lang (bot c)))%nat
      with k by (cbn; lia).
    rewrite lookup_app_l by (rewrite length_imap; exact Hk).
    now rewrite list_lookup_imap, Hx.
Qed.

End FormTraces.

(** * The further properties at the concrete instance *)

Lemma sampleCountHeight_antitone (t : Text) (w1 w2 : Z) :
  w1 <= w2 -> sampleCountHeight t w2 <= sampleCountHeight t w1.
Proof.
  intros Hle. unfold sampleCountHeight.
  set (need := 7 * Z.of_nat (String.length (text_string t))).
  assert (Hneed : 0 <= need) by (unfold need; lia).
  assert (Hceil : forall a, 0 < a ->
            (need + a - 1) / a = (need - 1) / a + 1).
  { intros a Ha. replace (need + a - 1) with (need - 1 + 1 * a) by lia.
    apply Z.div_add. lia. }
  assert (Hdiv : (need - 1) / Z.max 1 w2 <= (need - 1) / Z.max 1 w1).
  { destruct (Z.eq_dec need 0) as [->|Hpos].
    - assert (Hm : forall a, 0 < a -> (0 - 1) / a = -1).
      { intros a Ha. symmetry. apply (Z.div_unique_pos _ _ _ (a - 1)); lia. }
      rewrite !Hm by lia. lia.
    - apply Z.div_le_compat_l; lia. }
  rewrite !Hceil by lia.
  destruct (text_st t); lia.
Qed.



Lemma paint_fills_row_height_witness :
  30 +i (_descriptionHeight sampleRow300
         +i margin_bottom (passportRowPadding sampleStyle))
  = height sampleRow300.
Proof.
  pose proof (paint_fills_row_height sampleStyle sampleCountHeight
                (OpResize 300) sampleRow 0
                (_description sampleRow) 22 30 228 300) as H.
  cbv zeta in H. destruct H as [H _].
  - vm_compute. reflexivity.
  - exact H.
Defined.

Lemma wider_never_taller_witness :
  eval (resizeGetHeight sampleStyle sampleCountHeight 300) sampleRow
  <= eval (resizeGetHeight sampleStyle sampleCountHeight 120) sampleRow.
Proof.
  apply (wider_never_taller sampleStyle sampleCountHeight sampleRow 120 300).
  - exact sampleCountHeight_antitone.
  - fits_by_computation.
  - fits_by_computation.
  - fits_by_computation.
  - fits_by_computation.
  - lia.
Defined.

Lemma ready_never_lower_witness :
  height (exec (setReady sampleStyle sampleCountHeight false) sampleRow300)
  <= height (exec (setReady sampleStyle sampleCountHeight true) sampleRow300).
Proof.
  apply (ready_never_lower sampleStyle sampleCountHeight sampleRow300).
  - exact sampleCountHeight_antitone.
  - vm_compute. discriminate.
  - fits_by_computation.
  - fits_by_computation.
  - fits_by_computation.
  - fits_by_computation.
Defined.

Lemma no_width_floor_witness :
  countAvailableWidth sampleStyle 50 sampleRow < 0
  <-> 50 < margin_left (passportRowPadding sampleStyle)
           + margin_right (passportRowPadding sampleStyle)
           + icon_width (passportRowEmptyIcon sampleStyle)
           + passportRowIconSkip sampleStyle.
Proof.
  apply (no_width_floor sampleStyle sampleCountHeight sampleRow 50).
  fits_by_computation.
Defined.

Lemma setReady_same_icon_width_witness :
  let r := exec (resizeToWidth sampleStyleSameIcons sampleCountHeight 208)
             sampleRow in
  exec (setReady sampleStyleSameIcons sampleCountHeight true) r
  = set_updates (S (updates r)) (set_ready true r).
Proof.
  intros r.
  apply (setReady_same_icon_width sampleStyleSameIcons sampleCountHeight
           r true).
  - reflexivity.
  - split; [split|]; vm_compute; reflexivity.
Defined.


Lemma updateControlsGeometry_stacks_witness :
  let p' := exec (updateControlsGeometry sampleLineWidth
                    sampleShadowHeightAt sampleSubmitHeightAt)
              sampleControls in
  geo_y (_scroll p') + geo_height (_scroll p') = geo_y (_submit p')
  /\ geo_y (_submit p') + geo_height (_submit p') = 600.
Proof.
  intros p'.
  pose proof (updateControlsGeometry_stacks sampleLineWidth
                sampleShadowHeightAt sampleSubmitHeightAt sampleControls)
    as H.
  cbv zeta in H.
  destruct H as (_ & Hstack & _ & _ & _ & _ & _ & _ & _ & Hbottom & _).
  - vm_compute. discriminate.
  - vm_compute. discriminate.
  - fits_by_computation.
  - fits_by_computation.
  - split; [exact Hstack|]. apply Hbottom. reflexivity.
Defined.

Lemma shadows_off_iff_content_fits_witness :
  topShadowToggled 0 = false
  /\ bottomShadowToggled 0 500 800 = false
  <-> 800 <= 500.
Proof.
  apply (shadows_off_iff_content_fits 0 500 800).
  - vm_compute. split; discriminate.
  - fits_by_computation.
Defined.

Lemma userpic_centred_witness :
  let g' := exec (userpic_on_width 401)
              {| geo_x := 0; geo_y := 12;
                 geo_width := 90; geo_height := 90 |} in
  0 <= (401 - (geo_x g' + geo_width g')) - geo_x g' <= 1.
Proof.
  intros g'.
  apply (userpic_centred 401
           {| geo_x := 0; geo_y := 12; geo_width := 90; geo_height := 90 |}).
  - fits_by_computation.
  - vm_compute. discriminate.
Defined.

Lemma controller_receives_the_clicks_witness :
  calls (snd (handle_all sampleStyle sampleCountHeight
                [RowClicked 2; WidthChanged 300; RowClicked 7;
                 SubmitClicked; RowClicked 0]
                (PanelForm_new sampleStyle sampleCountHeight
                   sampleInitialSize sampleLang
                   (sampleController samplePolicyUrl),
                 sampleController samplePolicyUrl)))
  = [CallEditScope 2; CallSubmitForm; CallEditScope 0].
Proof.
  rewrite (controller_receives_the_clicks sampleStyle sampleCountHeight
             sampleInitialSize sampleLang
             (sampleController samplePolicyUrl)).
  - reflexivity.
  - apply Z.leb_le. vm_compute. reflexivity.
Defined.

Lemma row_flag_is_last_set_witness :
  exists r : Row,
    _rows (fst (handle_all sampleStyle sampleCountHeight
                  [RowSetReady 1 false; RowClicked 1; RowSetReady 0 true]
                  (PanelForm_new sampleStyle sampleCountHeight
                     sampleInitialSize sampleLang
                     (sampleController samplePolicyUrl),
                   sampleController samplePolicyUrl))) !! 1%nat
    = Some r
    /\ _ready r = false.
Proof.
  apply (row_flag_is_last_set sampleStyle sampleCountHeight
           sampleInitialSize sampleLang (sampleController samplePolicyUrl)
           [RowSetReady 1 false; RowClicked 1; RowSetReady 0 true]
           1%nat "Address"%string "Residential address"%string true).
  reflexivity.
Defined.

Lemma layout_children_settled_witness :
  inner (fst (handle_all sampleStyle sampleCountHeight
                [WidthChanged 300; RowClicked 0]
                (PanelForm_new sampleStyle sampleCountHeight
                   sampleInitialSize sampleLang
                   (sampleController samplePolicyUrl),
                 sampleController samplePolicyUrl))) !! (5 + 2)%nat
  = Some (RowChild 2, noMargins).
Proof.
  apply (layout_children_settled sampleStyle sampleCountHeight
           sampleInitialSize sampleLang (sampleController samplePolicyUrl)
           [WidthChanged 300; RowClicked 0]).
  vm_compute. lia.
Defined.
